(** * Sistema Otica - API: a shallow embedding of [app.py]

    The development follows the layout of the source file: the external
    modules the program imports ([hashlib], [sqlite3], [jwt]) come first, as
    small executable models of the parts the program calls; then the
    database section ([get_db], [criar_banco_basico]); then the endpoints
    ([status], [login], [listar_usuarios], [listar_empresas]); the theorems
    close the file.

    Conventions of the embedding:
    - Python [str] values are represented by their UTF-8 encoding, a Rocq
      [string]: [str.encode()] is then the identity, equality of strings is
      equality of byte sequences, and SQLite's default BINARY collation
      (memcmp on the UTF-8 bytes) is the lexicographic order on [string].
    - The database file is a value of type [store]; an operation runs in a
      [world], in a monad of state and exceptions.  A column holds values
      of its declared type, or NULL where the declaration allows it.
    - SQLite is taken with its defaults, as the program leaves them:
      AUTOINCREMENT never reuses a rowid, the foreign key of [usuarios] is
      recorded and not enforced, a connection dropped without [commit]
      loses what it wrote.
    - What the program prints is left out; the clock and the two
      configuration variables are read from an [environ];
      [datetime.utcnow() + timedelta(days=7)] is taken within the range of
      [datetime]. *)

From Stdlib Require Import ZArith List String Ascii Bool Lia.
From Stdlib Require Import Permutation Sorted DecimalString.
Import ListNotations.

Local Open Scope string_scope.
Local Open Scope list_scope.
Local Open Scope Z_scope.

(* ================================================================== *)
(** ** [hashlib]: SHA-256 (FIPS 180-4) with lowercase hexadecimal output *)
(* ================================================================== *)

Module hashlib.

(** Words are 32-bit unsigned integers held in [Z]; every operation that
    can leave the range is followed by an explicit reduction. *)
Definition mask32 : Z := 4294967295.

Definition w32 (x : Z) : Z := Z.land x mask32.

Definition add32 (x y : Z) : Z := w32 (x + y).

Definition rotr (n x : Z) : Z :=
  Z.lor (Z.shiftr x n) (w32 (Z.shiftl x (32 - n))).

Definition not32 (x : Z) : Z := Z.lxor x mask32.

Definition Ch (x y z : Z) : Z :=
  Z.lxor (Z.land x y) (Z.land (not32 x) z).

Definition Maj (x y z : Z) : Z :=
  Z.lxor (Z.lxor (Z.land x y) (Z.land x z)) (Z.land y z).

Definition bsig0 (x : Z) : Z :=
  Z.lxor (Z.lxor (rotr 2 x) (rotr 13 x)) (rotr 22 x).

Definition bsig1 (x : Z) : Z :=
  Z.lxor (Z.lxor (rotr 6 x) (rotr 11 x)) (rotr 25 x).

Definition ssig0 (x : Z) : Z :=
  Z.lxor (Z.lxor (rotr 7 x) (rotr 18 x)) (Z.shiftr x 3).

Definition ssig1 (x : Z) : Z :=
  Z.lxor (Z.lxor (rotr 17 x) (rotr 19 x)) (Z.shiftr x 10).

(** The round constants and the initial hash value of FIPS 180-4,
    section 4.2.2 and 5.3.3, in decimal. *)
Definition K : list Z :=
  [ 1116352408; 1899447441; 3049323471; 3921009573;
    961987163; 1508970993; 2453635748; 2870763221;
    3624381080; 310598401; 607225278; 1426881987;
    1925078388; 2162078206; 2614888103; 3248222580;
    3835390401; 4022224774; 264347078; 604807628;
    770255983; 1249150122; 1555081692; 1996064986;
    2554220882; 2821834349; 2952996808; 3210313671;
    3336571891; 3584528711; 113926993; 338241895;
    666307205; 773529912; 1294757372; 1396182291;
    1695183700; 1986661051; 2177026350; 2456956037;
    2730485921; 2820302411; 3259730800; 3345764771;
    3516065817; 3600352804; 4094571909; 275423344;
    430227734; 506948616; 659060556; 883997877;
    958139571; 1322822218; 1537002063; 1747873779;
    1955562222; 2024104815; 2227730452; 2361852424;
    2428436474; 2756734187; 3204031479; 3329325298 ].

Definition H0 : list Z :=
  [ 1779033703; 3144134277; 1013904242; 2773480762;
    1359893119; 2600822924; 528734635; 1541459225 ].

(** Padding: the byte 0x80, then zero bytes up to 56 modulo 64, then the
    bit length as a 64-bit big-endian integer. *)
Definition be_bytes (n : nat) (x : Z) : list Z :=
  map (fun i => Z.land (Z.shiftr x (8 * Z.of_nat i)) 255) (rev (seq 0 n)).

Definition pad (msg : list Z) : list Z :=
  let len := Z.of_nat (List.length msg) in
  let zeros := Z.to_nat ((55 - len) mod 64) in
  msg ++ [128] ++ repeat 0 zeros ++ be_bytes 8 (8 * len).

Fixpoint be_words (bs : list Z) : list Z :=
  match bs with
  | b0 :: b1 :: b2 :: b3 :: rest =>
      (Z.shiftl b0 24 + Z.shiftl b1 16 + Z.shiftl b2 8 + b3) :: be_words rest
  | _ => []
  end.

(** Blocks of sixteen words; [fuel] bounds the number of blocks. *)
Fixpoint blocks (fuel : nat) (ws : list Z) : list (list Z) :=
  match fuel, ws with
  | S fuel', _ :: _ => firstn 16 ws :: blocks fuel' (skipn 16 ws)
  | _, _ => []
  end.

(** The message schedule, most recent word first: at step t the words
    W(t-2), W(t-7), W(t-15) and W(t-16) sit at positions 1, 6, 14, 15. *)
Fixpoint schedule (n : nat) (recent : list Z) : list Z :=
  match n with
  | O => recent
  | S n' =>
      let w := add32 (add32 (ssig1 (nth 1 recent 0)) (nth 6 recent 0))
                     (add32 (ssig0 (nth 14 recent 0)) (nth 15 recent 0)) in
      schedule n' (w :: recent)
  end.

Definition expand (block : list Z) : list Z :=
  rev (schedule 48 (rev block)).

Record regs := mkRegs
  { ra : Z; rb : Z; rc : Z; rd : Z; re : Z; rf : Z; rg : Z; rh : Z }.

Definition round (r : regs) (kw : Z * Z) : regs :=
  let '(k, w) := kw in
  let t1 := add32 (add32 (add32 (rh r) (bsig1 (re r)))
                         (add32 (Ch (re r) (rf r) (rg r)) k)) w in
  let t2 := add32 (bsig0 (ra r)) (Maj (ra r) (rb r) (rc r)) in
  mkRegs (add32 t1 t2) (ra r) (rb r) (rc r)
         (add32 (rd r) t1) (re r) (rf r) (rg r).

Definition regs_of (h : list Z) : regs :=
  mkRegs (nth 0 h 0) (nth 1 h 0) (nth 2 h 0) (nth 3 h 0)
         (nth 4 h 0) (nth 5 h 0) (nth 6 h 0) (nth 7 h 0).

Definition list_of (r : regs) : list Z :=
  [ra r; rb r; rc r; rd r; re r; rf r; rg r; rh r].

Definition compress (h : list Z) (block : list Z) : list Z :=
  let r := fold_left round (combine K (expand block)) (regs_of h) in
  map (fun p => add32 (fst p) (snd p)) (combine h (list_of r)).

Definition digest_words (msg : list Z) : list Z :=
  let ws := be_words (pad msg) in
  fold_left compress (blocks (List.length ws) ws) H0.

Definition hex_digit (d : Z) : ascii :=
  if d <? 10 then ascii_of_nat (Z.to_nat (48 + d))
  else ascii_of_nat (Z.to_nat (87 + d)).

Definition hex_word (w : Z) : string :=
  fold_right (fun i acc => String (hex_digit (Z.land (Z.shiftr w (4 * Z.of_nat i)) 15)) acc)
             EmptyString (rev (seq 0 8)).

Definition bytes_of (s : string) : list Z :=
  map (fun c => Z.of_nat (nat_of_ascii c)) (list_ascii_of_string s).

(** [hashlib.sha256(s.encode()).hexdigest()] *)
Definition sha256_hexdigest (s : string) : string :=
  fold_right String.append EmptyString (map hex_word (digest_words (bytes_of s))).

End hashlib.

Arguments hashlib.sha256_hexdigest : simpl never.

(* ================================================================== *)
(** ** Python values, exceptions and the effect monad *)
(* ================================================================== *)

(** The Python values the endpoints build: [None], [int], [str], [bool],
    [datetime] (microseconds since the epoch), [list] and [dict].  A [dict]
    keeps its insertion order, as Python's does. *)
#[local] Set Warnings "-register-all".
Inductive value : Type :=
| VNone
| VInt (z : Z)
| VStr (s : string)
| VBool (b : bool)
| VDatetime (us : Z)
| VList (l : list value)
| VDict (d : list (string * value)).
#[local] Set Warnings "register-all".

Definition dict : Type := list (string * value).

(** [d[k]], and [k in d] *)
Fixpoint getitem (d : dict) (k : string) : option value :=
  match d with
  | [] => None
  | (k', v) :: d' => if String.eqb k k' then Some v else getitem d' k
  end.

Definition has_key (d : dict) (k : string) : bool :=
  existsb (fun kv => String.eqb k (fst kv)) d.

Definition keys (d : dict) : list string := map fst d.

(** A nullable TEXT or INTEGER column read into Python. *)
Definition text_or_none (o : option string) : value :=
  match o with Some s => VStr s | None => VNone end.

Definition int_or_none (o : option Z) : value :=
  match o with Some z => VInt z | None => VNone end.

(** [timedelta(days=d)] in microseconds. *)
Definition timedelta_days (d : Z) : Z := d * 86400000000.

(** The exceptions that occur: the two [sqlite3] error classes the
    statements of the program can raise, the [KeyError] of a subscript,
    PyJWT's [InvalidKeyError] and FastAPI's [HTTPException]. *)
Inductive exn : Type :=
| OperationalError (msg : string)
| IntegrityError (msg : string)
| KeyError (key : string)
| InvalidKeyError (msg : string)
| HTTPException (status_code : Z) (detail : string).

Definition is_HTTPException (e : exn) : bool :=
  match e with HTTPException _ _ => true | _ => false end.

Definition decimal (z : Z) : string :=
  DecimalString.NilZero.string_of_int (Z.to_int z).

(** [str(e)]: the message of a [sqlite3] error or of an
    [InvalidKeyError]; Starlette prints an [HTTPException] as its status
    code, a colon and its detail. *)
Definition str (e : exn) : string :=
  match e with
  | OperationalError msg => msg
  | IntegrityError msg => msg
  | KeyError key => "'" ++ key ++ "'"
  | InvalidKeyError msg => msg
  | HTTPException code detail => decimal code ++ ": " ++ detail
  end%string.

Inductive outcome (A : Type) : Type :=
| Return (a : A)
| Raise (e : exn).
Arguments Return {A} a.
Arguments Raise {A} e.

Definition is_Raise {A} (o : outcome A) : bool :=
  match o with Raise _ => true | Return _ => false end.

(* ================================================================== *)
(** ** [sqlite3]: the store behind [DB_PATH] and the statements used *)
(* ================================================================== *)

(** One row of each table, with the columns of the two CREATE TABLE
    statements, in their order.  A column declared NOT NULL (and the
    INTEGER PRIMARY KEY) holds a value of its type; the others are
    nullable. *)
Record empresas_row : Type := mkEmpresa
  { e_id : Z;
    e_nome : string;
    e_cnpj : option string;
    e_email : option string;
    e_telefone : option string;
    e_ativo : option Z;
    e_created_at : option string }.

Record usuarios_row : Type := mkUsuario
  { u_id : Z;
    u_empresa_id : Z;
    u_nome : string;
    u_email : string;
    u_senha_hash : string;
    u_funcao : option string;
    u_ativo : option Z;
    u_created_at : option string }.

(** The database file.  A table is [None] while it does not exist.
    [sqlite_sequence] is the table SQLite keeps for AUTOINCREMENT columns
    (the largest rowid ever issued, per table name); [other_tables] names
    any further table of the file.  Rows are held in scan order. *)
Record store : Type := mkStore
  { empresas : option (list empresas_row);
    usuarios : option (list usuarios_row);
    sqlite_sequence : option (list (string * Z));
    other_tables : list string }.

(** The file [sqlite3.connect] creates when none exists. *)
Definition empty_store : store := mkStore None None None [].

(** The world an operation runs in: the committed file, the uncommitted
    view of the open connection if it has started a transaction, and what
    the next calls of [sqlite3.connect] will meet, one entry a call: the
    message of the error that call raises, or [None] when it opens the
    file; past the end of the list every call opens the file. *)
Record world : Type := mkWorld
  { disk : store;
    tx : option store;
    faults : list (option string) }.

Definition view (w : world) : store :=
  match tx w with Some s => s | None => disk w end.

Definition reachable (s : store) : world := mkWorld s None [].

Definition M (A : Type) : Type := world -> outcome A * world.

Definition ret {A} (a : A) : M A := fun w => (Return a, w).

Definition raise {A} (e : exn) : M A := fun w => (Raise e, w).

(** A call that touches neither the file nor the connection. *)
Definition lift {A} (o : outcome A) : M A := fun w => (o, w).

Definition bind {A B} (m : M A) (f : A -> M B) : M B :=
  fun w =>
    match m w with
    | (Return a, w') => f a w'
    | (Raise e, w') => (Raise e, w')
    end.

(** [try: m  except Exception as e: h e] *)
Definition try_except {A} (m : M A) (h : exn -> M A) : M A :=
  fun w =>
    match m w with
    | (Return a, w') => (Return a, w')
    | (Raise e, w') => h e w'
    end.

Notation "x <- m ;; k" := (bind m (fun x => k))
  (at level 61, m at next level, right associativity).
Notation "m ;;; k" := (bind m (fun _ => k))
  (at level 61, right associativity).

Module sqlite3.

(** [sqlite3.connect(DB_PATH)].  A new connection sees the committed
    file only: what an abandoned connection left uncommitted is gone. *)
Definition connect : M unit :=
  fun w =>
    match faults w with
    | Some msg :: rest =>
        (Raise (OperationalError msg), mkWorld (disk w) (tx w) rest)
    | None :: rest => (Return tt, mkWorld (disk w) None rest)
    | [] => (Return tt, mkWorld (disk w) None [])
    end.

(** [conn.commit()] and [conn.close()] *)
Definition commit : M unit :=
  fun w => (Return tt, mkWorld (view w) None (faults w)).

Definition close : M unit :=
  fun w => (Return tt, mkWorld (disk w) None (faults w)).

(** A SELECT reads the connection's view. *)
Definition select {A} (q : store -> outcome A) : M A :=
  fun w => (q (view w), w).

(** A CREATE TABLE runs where the connection stands: Python's [sqlite3]
    opens no transaction for it, so outside a transaction it is written
    to the file at once. *)
Definition ddl (f : store -> store) : M unit :=
  fun w =>
    match tx w with
    | Some s => (Return tt, mkWorld (disk w) (Some (f s)) (faults w))
    | None => (Return tt, mkWorld (f (disk w)) None (faults w))
    end.

(** An INSERT first opens a transaction if none is open (Python's
    implicit BEGIN); a failing statement leaves the transaction as it
    was. *)
Definition dml (f : store -> outcome store) : M unit :=
  fun w =>
    match f (view w) with
    | Return s' => (Return tt, mkWorld (disk w) (Some s') (faults w))
    | Raise e => (Raise e, mkWorld (disk w) (Some (view w)) (faults w))
    end.

Definition no_such_table {A} (name : string) : outcome A :=
  Raise (OperationalError ("no such table: " ++ name)%string).

(** *** AUTOINCREMENT *)

Fixpoint assoc (k : string) (l : list (string * Z)) : option Z :=
  match l with
  | [] => None
  | (k', v) :: l' => if String.eqb k k' then Some v else assoc k l'
  end.

Fixpoint assoc_set (k : string) (v : Z) (l : list (string * Z))
  : list (string * Z) :=
  match l with
  | [] => [(k, v)]
  | (k', v') :: l' =>
      if String.eqb k k' then (k, v) :: l' else (k', v') :: assoc_set k v l'
  end.

Definition seq_of (name : string) (s : store) : Z :=
  match sqlite_sequence s with
  | Some l => match assoc name l with Some n => n | None => 0 end
  | None => 0
  end.

Definition max_rowid (ids : list Z) : Z := fold_right Z.max 0 ids.

Definition MAX_ROWID : Z := 9223372036854775807.

(** The rowid of a new row of an AUTOINCREMENT table: one more than the
    largest rowid the table has ever held; SQLITE_FULL once the largest
    possible rowid has been used. *)
Definition next_rowid (name : string) (ids : list Z) (s : store)
  : outcome Z :=
  let m := Z.max (seq_of name s) (max_rowid ids) in
  if m >=? MAX_ROWID
  then Raise (OperationalError "database or disk is full")
  else Return (m + 1).

Definition bump_sequence (name : string) (id : Z) (s : store)
  : option (list (string * Z)) :=
  Some (assoc_set name id
          (match sqlite_sequence s with Some l => l | None => [] end)).

Definition ensure_sequence (s : store) : option (list (string * Z)) :=
  match sqlite_sequence s with Some l => Some l | None => Some [] end.

End sqlite3.

(** *** The statements of the program *)

(** [ativo = 1] *)
Definition is_one (o : option Z) : bool :=
  match o with Some z => z =? 1 | None => false end.

(** CREATE TABLE IF NOT EXISTS empresas
      (id INTEGER PRIMARY KEY AUTOINCREMENT, nome TEXT NOT NULL, cnpj TEXT,
       email TEXT, telefone TEXT, ativo INTEGER DEFAULT 1,
       created_at TEXT DEFAULT CURRENT_TIMESTAMP) *)
Definition create_table_empresas : M unit :=
  sqlite3.ddl (fun s =>
    match empresas s with
    | Some _ => s
    | None =>
        mkStore (Some []) (usuarios s) (sqlite3.ensure_sequence s)
                (other_tables s)
    end).

(** CREATE TABLE IF NOT EXISTS usuarios
      (id INTEGER PRIMARY KEY AUTOINCREMENT, empresa_id INTEGER NOT NULL,
       nome TEXT NOT NULL, email TEXT NOT NULL UNIQUE,
       senha_hash TEXT NOT NULL, funcao TEXT DEFAULT 'vendedor',
       ativo INTEGER DEFAULT 1, created_at TEXT DEFAULT CURRENT_TIMESTAMP,
       FOREIGN KEY (empresa_id) REFERENCES empresas(id))

    The program never turns [PRAGMA foreign_keys] on, so SQLite records the
    foreign key and does not enforce it. *)
Definition create_table_usuarios : M unit :=
  sqlite3.ddl (fun s =>
    match usuarios s with
    | Some _ => s
    | None =>
        mkStore (empresas s) (Some []) (sqlite3.ensure_sequence s)
                (other_tables s)
    end).

(** SELECT COUNT( * ) FROM empresas *)
Definition select_count_empresas : M Z :=
  sqlite3.select (fun s =>
    match empresas s with
    | Some es => Return (Z.of_nat (List.length es))
    | None => sqlite3.no_such_table "empresas"
    end).

(** INSERT INTO empresas (nome, cnpj, email, telefone) VALUES (...);
    [ativo] and [created_at] take their defaults. *)
Definition insert_empresa (current_timestamp : string)
    (nome cnpj email telefone : string) : M unit :=
  sqlite3.dml (fun s =>
    match empresas s with
    | None => sqlite3.no_such_table "empresas"
    | Some es =>
        match sqlite3.next_rowid "empresas" (map e_id es) s with
        | Raise e => Raise e
        | Return id =>
            Return (mkStore
              (Some (es ++ [mkEmpresa id nome (Some cnpj) (Some email)
                              (Some telefone) (Some 1)
                              (Some current_timestamp)]))
              (usuarios s)
              (sqlite3.bump_sequence "empresas" id s)
              (other_tables s))
        end
    end).

(** INSERT INTO usuarios (empresa_id, nome, email, senha_hash, funcao)
    VALUES (...); the UNIQUE index on [email] rejects a second row with the
    same email. *)
Definition insert_usuario (current_timestamp : string) (empresa_id : Z)
    (nome email senha_hash funcao : string) : M unit :=
  sqlite3.dml (fun s =>
    match usuarios s with
    | None => sqlite3.no_such_table "usuarios"
    | Some us =>
        match sqlite3.next_rowid "usuarios" (map u_id us) s with
        | Raise e => Raise e
        | Return id =>
            if existsb (fun u => String.eqb (u_email u) email) us
            then Raise (IntegrityError
                          "UNIQUE constraint failed: usuarios.email")
            else
              Return (mkStore
                (empresas s)
                (Some (us ++ [mkUsuario id empresa_id nome email senha_hash
                                (Some funcao) (Some 1)
                                (Some current_timestamp)]))
                (sqlite3.bump_sequence "usuarios" id s)
                (other_tables s))
        end
    end).

(** SELECT COUNT( * ) FROM sqlite_master WHERE type='table' *)
Definition table_count {A} (t : option A) : Z :=
  match t with Some _ => 1 | None => 0 end.

Definition count_tables (s : store) : Z :=
  table_count (empresas s) + table_count (usuarios s)
  + table_count (sqlite_sequence s)
  + Z.of_nat (List.length (other_tables s)).

Definition select_count_tables : M Z :=
  sqlite3.select (fun s => Return (count_tables s)).

(** SELECT COUNT( * ) FROM empresas WHERE ativo = 1 *)
Definition select_count_empresas_ativas : M Z :=
  sqlite3.select (fun s =>
    match empresas s with
    | Some es =>
        Return (Z.of_nat (List.length (filter (fun e => is_one (e_ativo e)) es)))
    | None => sqlite3.no_such_table "empresas"
    end).

(** SELECT COUNT( * ) FROM usuarios WHERE ativo = 1 *)
Definition select_count_usuarios_ativos : M Z :=
  sqlite3.select (fun s =>
    match usuarios s with
    | Some us =>
        Return (Z.of_nat (List.length (filter (fun u => is_one (u_ativo u)) us)))
    | None => sqlite3.no_such_table "usuarios"
    end).

(** FROM usuarios u JOIN empresas e ON u.empresa_id = e.id: an inner join,
    one row per pair of a user and a company with that identifier. *)
Definition join_empresas (es : list empresas_row) (u : usuarios_row)
  : list (usuarios_row * empresas_row) :=
  map (pair u) (filter (fun e => u_empresa_id u =? e_id e) es).

Definition usuarios_join_empresas (us : list usuarios_row)
    (es : list empresas_row) : list (usuarios_row * empresas_row) :=
  flat_map (join_empresas es) us.

(** ORDER BY a TEXT column: ascending in the BINARY collation.  The sort
    is a stable insertion sort; SQL leaves the order of ties open. *)
Fixpoint insert_by {A} (key : A -> string) (x : A) (l : list A) : list A :=
  match l with
  | [] => [x]
  | y :: l' =>
      if String.leb (key x) (key y) then x :: l
      else y :: insert_by key x l'
  end.

Definition order_by {A} (key : A -> string) (l : list A) : list A :=
  fold_right (insert_by key) [] l.

(** WHERE u.email = ? AND u.senha_hash = ? AND u.ativo = 1 *)
Definition login_where (email senha_hash : string)
    (ue : usuarios_row * empresas_row) : bool :=
  String.eqb (u_email (fst ue)) email
  && String.eqb (u_senha_hash (fst ue)) senha_hash
  && is_one (u_ativo (fst ue)).

(** [dict(row)] for a row of SELECT u.*, e.nome as empresa_nome, e.cnpj *)
Definition login_row (ue : usuarios_row * empresas_row) : dict :=
  let (u, e) := ue in
  [ ("id", VInt (u_id u));
    ("empresa_id", VInt (u_empresa_id u));
    ("nome", VStr (u_nome u));
    ("email", VStr (u_email u));
    ("senha_hash", VStr (u_senha_hash u));
    ("funcao", text_or_none (u_funcao u));
    ("ativo", int_or_none (u_ativo u));
    ("created_at", text_or_none (u_created_at u));
    ("empresa_nome", VStr (e_nome e));
    ("cnpj", text_or_none (e_cnpj e)) ].

Definition missing_join_table {A} (s : store) : outcome A :=
  match usuarios s with
  | None => sqlite3.no_such_table "usuarios"
  | Some _ => sqlite3.no_such_table "empresas"
  end.

(** SELECT u.*, e.nome as empresa_nome, e.cnpj
    FROM usuarios u JOIN empresas e ON u.empresa_id = e.id
    WHERE u.email = ? AND u.senha_hash = ? AND u.ativo = 1 *)
Definition select_login (email senha_hash : string) : M (list dict) :=
  sqlite3.select (fun s =>
    match usuarios s, empresas s with
    | Some us, Some es =>
        Return (map login_row
                  (filter (login_where email senha_hash)
                          (usuarios_join_empresas us es)))
    | _, _ => missing_join_table s
    end).

(** [dict(row)] for a row of
    SELECT u.id, u.nome, u.email, u.funcao, u.ativo, e.nome as empresa_nome *)
Definition usuarios_row_dict (ue : usuarios_row * empresas_row) : dict :=
  let (u, e) := ue in
  [ ("id", VInt (u_id u));
    ("nome", VStr (u_nome u));
    ("email", VStr (u_email u));
    ("funcao", text_or_none (u_funcao u));
    ("ativo", int_or_none (u_ativo u));
    ("empresa_nome", VStr (e_nome e)) ].

(** SELECT u.id, u.nome, u.email, u.funcao, u.ativo, e.nome as empresa_nome
    FROM usuarios u JOIN empresas e ON u.empresa_id = e.id
    ORDER BY u.nome *)
Definition usuarios_listados (us : list usuarios_row)
    (es : list empresas_row) : list (usuarios_row * empresas_row) :=
  order_by (fun ue => u_nome (fst ue)) (usuarios_join_empresas us es).

Definition select_usuarios : M (list dict) :=
  sqlite3.select (fun s =>
    match usuarios s, empresas s with
    | Some us, Some es => Return (map usuarios_row_dict (usuarios_listados us es))
    | _, _ => missing_join_table s
    end).

(** [dict(row)] for a row of SELECT * FROM empresas *)
Definition empresas_row_dict (e : empresas_row) : dict :=
  [ ("id", VInt (e_id e));
    ("nome", VStr (e_nome e));
    ("cnpj", text_or_none (e_cnpj e));
    ("email", text_or_none (e_email e));
    ("telefone", text_or_none (e_telefone e));
    ("ativo", int_or_none (e_ativo e));
    ("created_at", text_or_none (e_created_at e)) ].

(** SELECT * FROM empresas ORDER BY nome *)
Definition select_empresas : M (list dict) :=
  sqlite3.select (fun s =>
    match empresas s with
    | Some es => Return (map empresas_row_dict (order_by e_nome es))
    | None => sqlite3.no_such_table "empresas"
    end).

(** [cursor.fetchone()] *)
Definition fetchone {A} (rows : list A) : option A := hd_error rows.

(** [d[k]] *)
Definition subscript (d : dict) (k : string) : M value :=
  match getitem d k with
  | Some v => ret v
  | None => raise (KeyError k)
  end.

(* ================================================================== *)
(** ** [jwt] *)
(* ================================================================== *)

Module jwt.

(** A token is kept as the term that names it, so two tokens are equal
    exactly when they were signed from the same payload, with the same key
    and algorithm. *)
Inductive token : Type :=
| signed (payload : dict) (key : string) (algorithm : string).

Definition claims (t : token) : dict :=
  match t with signed payload _ _ => payload end.

(** [jwt.encode(payload, key, algorithm=...)].  PyJWT prepares the key
    before it signs, and its HMAC algorithms refuse a key in which they
    recognise a PEM block or an SSH public key: [encode] then raises
    [InvalidKeyError].  [refusal] is the message of that error for [key],
    [None] when PyJWT accepts [key].  On an accepted key the payloads of
    this program (integers, strings, [None] and a datetime under "exp")
    are signed. *)
Definition encode (refusal : option string) (payload : dict)
    (key : string) (algorithm : string) : outcome token :=
  match refusal with
  | Some msg => Raise (InvalidKeyError msg)
  | None => Return (signed payload key algorithm)
  end.

End jwt.

(* ================================================================== *)
(** ** The program *)
(* ================================================================== *)

(** What the program reads from outside itself: the two configuration
    variables it uses after start-up, what the installed PyJWT answers for
    [SECRET_KEY] as an HS256 secret (the message of its [InvalidKeyError],
    [None] when it accepts the key), and the clock, read as
    [datetime.utcnow()] (microseconds since the epoch),
    [datetime.now().isoformat()] and SQLite's CURRENT_TIMESTAMP. *)
Record environ : Type := mkEnviron
  { SECRET_KEY : string;
    jwt_key_error : option string;
    ENVIRONMENT : string;
    datetime_utcnow : Z;
    datetime_now_isoformat : string;
    CURRENT_TIMESTAMP : string }.

(** *** MODELS *)

Record LoginRequest : Type := mkLoginRequest
  { email : string;
    password : string }.

Record LoginResponse : Type := mkLoginResponse
  { token : jwt.token;
    usuario : dict;
    empresa : dict }.

(** *** DATABASE *)

Definition criar_banco_basico (env : environ) : M unit :=
  sqlite3.connect ;;;
  create_table_empresas ;;;
  create_table_usuarios ;;;
  n <- select_count_empresas ;;
  (if n =? 0 then
     insert_empresa (CURRENT_TIMESTAMP env)
       "Ótica Vision" "12.345.678/0001-90" "contato@oticavision.com.br"
       "(11) 98765-4321" ;;;
     let senha_hash := hashlib.sha256_hexdigest "123456" in
     insert_usuario (CURRENT_TIMESTAMP env)
       1 "Administrador" "admin@oticavision.com.br" senha_hash "admin"
   else ret tt) ;;;
  sqlite3.commit ;;;
  sqlite3.close.

Definition get_db (env : environ) : M unit :=
  try_except sqlite3.connect
    (fun _ =>
       criar_banco_basico env ;;;
       sqlite3.connect).

(** *** ENDPOINTS *)

(** The body of the [try] of [status]. *)
Definition status_try (env : environ) : M dict :=
  get_db env ;;;
  total_tabelas <- select_count_tables ;;
  total_empresas <- select_count_empresas_ativas ;;
  total_usuarios <- select_count_usuarios_ativos ;;
  sqlite3.close ;;;
  ret [ ("status", VStr "ok");
        ("database", VBool true);
        ("ambiente", VStr (ENVIRONMENT env));
        ("tabelas", VInt total_tabelas);
        ("empresas_ativas", VInt total_empresas);
        ("usuarios_ativos", VInt total_usuarios);
        ("timestamp", VStr (datetime_now_isoformat env)) ].

Definition status_except (env : environ) (e : exn) : dict :=
  [ ("status", VStr "error");
    ("database", VBool false);
    ("erro", VStr (str e));
    ("timestamp", VStr (datetime_now_isoformat env)) ].

Definition status (env : environ) : M dict :=
  try_except (status_try env) (fun e => ret (status_except env e)).

Definition login_try (env : environ) (request : LoginRequest)
  : M LoginResponse :=
  get_db env ;;;
  let senha_hash := hashlib.sha256_hexdigest (password request) in
  rows <- select_login (email request) senha_hash ;;
  match fetchone rows with
  | None => raise (HTTPException 401 "Credenciais inválidas")
  | Some usuario =>
      (* usuario = dict(row) *)
      user_id <- subscript usuario "id" ;;
      empresa_id <- subscript usuario "empresa_id" ;;
      tk_email <- subscript usuario "email" ;;
      funcao <- subscript usuario "funcao" ;;
      let token_data :=
        [ ("user_id", user_id);
          ("empresa_id", empresa_id);
          ("email", tk_email);
          ("funcao", funcao);
          ("exp", VDatetime (datetime_utcnow env + timedelta_days 7)) ] in
      token <- lift (jwt.encode (jwt_key_error env) token_data
                       (SECRET_KEY env) "HS256") ;;
      sqlite3.close ;;;
      r_id <- subscript usuario "id" ;;
      r_nome <- subscript usuario "nome" ;;
      r_email <- subscript usuario "email" ;;
      r_funcao <- subscript usuario "funcao" ;;
      c_id <- subscript usuario "empresa_id" ;;
      c_nome <- subscript usuario "empresa_nome" ;;
      c_cnpj <- subscript usuario "cnpj" ;;
      ret (mkLoginResponse token
             [ ("id", r_id); ("nome", r_nome); ("email", r_email);
               ("funcao", r_funcao) ]
             [ ("id", c_id); ("nome", c_nome); ("cnpj", c_cnpj) ])
  end.

(** [except HTTPException: raise] then
    [except Exception as e: raise HTTPException(500, ...)] *)
Definition login (env : environ) (request : LoginRequest)
  : M LoginResponse :=
  try_except (login_try env request)
    (fun e =>
       if is_HTTPException e then raise e
       else raise (HTTPException 500 ("Erro no login: " ++ str e)%string)).

Definition listar_usuarios (env : environ) : M value :=
  try_except
    (get_db env ;;;
     rows <- select_usuarios ;;
     sqlite3.close ;;;
     ret (VDict [ ("total", VInt (Z.of_nat (List.length rows)));
                  ("usuarios", VList (map VDict rows)) ]))
    (fun e => raise (HTTPException 500 (str e))).

Definition listar_empresas (env : environ) : M value :=
  try_except
    (get_db env ;;;
     rows <- select_empresas ;;
     sqlite3.close ;;;
     ret (VDict [ ("total", VInt (Z.of_nat (List.length rows)));
                  ("empresas", VList (map VDict rows)) ]))
    (fun e => raise (HTTPException 500 (str e))).

(** *** STARTUP *)

Definition startup_event (env : environ) : M unit :=
  try_except
    (get_db env ;;;
     sqlite3.close)
    (fun _ => criar_banco_basico env).

(** Running an operation: its outcome, and the file it leaves. *)
Definition result {A} (m : M A) (w : world) : outcome A := fst (m w).

Definition disk_after {A} (m : M A) (w : world) : store := disk (snd (m w)).

(** The environment of the source's defaults: PyJWT accepts the default
    secret. *)
Definition default_environ : environ :=
  mkEnviron "optica-secret-key-2026" None "production"
            1793779200000000 "2026-11-04T09:00:00.000000"
            "2026-11-04 12:00:00".

(* ================================================================== *)
(** ** Vocabulary of the statements *)
(* ================================================================== *)

(** The row the login query looks for: a user with the request's email,
    the digest of the request's password and [ativo = 1], together with
    the company its [empresa_id] names. *)
Definition active_login (us : list usuarios_row) (es : list empresas_row)
    (request : LoginRequest) (u : usuarios_row) (e : empresas_row) : Prop :=
  In u us /\ In e es /\ u_empresa_id u = e_id e
  /\ u_email u = email request
  /\ u_senha_hash u = hashlib.sha256_hexdigest (password request)
  /\ u_ativo u = Some 1.

Definition InvalidCredentials : exn :=
  HTTPException 401 "Credenciais inválidas".

(** What a successful login answers for the joined row [(u, e)]. *)
Definition token_claims (env : environ) (u : usuarios_row) : dict :=
  [ ("user_id", VInt (u_id u));
    ("empresa_id", VInt (u_empresa_id u));
    ("email", VStr (u_email u));
    ("funcao", text_or_none (u_funcao u));
    ("exp", VDatetime (datetime_utcnow env + timedelta_days 7)) ].

Definition login_payload (env : environ)
    (ue : usuarios_row * empresas_row) : LoginResponse :=
  mkLoginResponse
    (jwt.signed (token_claims env (fst ue)) (SECRET_KEY env) "HS256")
    [ ("id", VInt (u_id (fst ue)));
      ("nome", VStr (u_nome (fst ue)));
      ("email", VStr (u_email (fst ue)));
      ("funcao", text_or_none (u_funcao (fst ue))) ]
    [ ("id", VInt (u_empresa_id (fst ue)));
      ("nome", VStr (e_nome (snd ue)));
      ("cnpj", text_or_none (e_cnpj (snd ue))) ].

(** The store a request is answered from: the file as [get_db] leaves it. *)
Definition store_seen (env : environ) (w : world) : store :=
  disk (snd (get_db env w)).

(** The answer of [login] once [get_db] has returned, as a function of the
    store it reads. *)
Definition login_answer (env : environ) (request : LoginRequest)
    (s : store) : outcome LoginResponse :=
  match usuarios s, empresas s with
  | Some us, Some es =>
      match filter (login_where (email request)
                      (hashlib.sha256_hexdigest (password request)))
                   (usuarios_join_empresas us es) with
      | [] => Raise InvalidCredentials
      | ue :: _ =>
          match jwt_key_error env with
          | Some msg => Raise (HTTPException 500 ("Erro no login: " ++ msg))
          | None => Return (login_payload env ue)
          end
      end
  | None, _ =>
      Raise (HTTPException 500 "Erro no login: no such table: usuarios")
  | Some _, None =>
      Raise (HTTPException 500 "Erro no login: no such table: empresas")
  end.

(** The two rows the bootstrapper writes, at the time [ts], under the
    identifiers [id]; the user is written with [empresa_id] 1. *)
Definition seed_empresa (ts : string) (id : Z) : empresas_row :=
  mkEmpresa id "Ótica Vision" (Some "12.345.678/0001-90")
            (Some "contato@oticavision.com.br") (Some "(11) 98765-4321")
            (Some 1) (Some ts).

Definition seed_usuario (ts : string) (id : Z) : usuarios_row :=
  mkUsuario id 1 "Administrador" "admin@oticavision.com.br"
            (hashlib.sha256_hexdigest "123456") (Some "admin") (Some 1)
            (Some ts).

(** The store the bootstrapper leaves when it runs on the empty file at
    the time [ts]. *)
Definition seeded_store (ts : string) : store :=
  mkStore
    (Some [seed_empresa ts 1])
    (Some [seed_usuario ts 1])
    (Some [("empresas", 1); ("usuarios", 1)])
    [].

(** The rows of a table; a table that does not exist has none. *)
Definition rows {A} (t : option (list A)) : list A :=
  match t with Some l => l | None => [] end.

(** A file whose [empresas] table is empty although three companies were
    created in it (and deleted since): AUTOINCREMENT remembers them. *)
Definition emptied_store : store :=
  mkStore (Some []) (Some []) (Some [("empresas", 3)]) [].

(** The answer of [status] once [get_db] has returned, as a function of
    the store it reads. *)
Definition status_answer (env : environ) (s : store) : dict :=
  match empresas s, usuarios s with
  | Some es, Some us =>
      [ ("status", VStr "ok");
        ("database", VBool true);
        ("ambiente", VStr (ENVIRONMENT env));
        ("tabelas", VInt (count_tables s));
        ("empresas_ativas",
         VInt (Z.of_nat (List.length (filter (fun e => is_one (e_ativo e)) es))));
        ("usuarios_ativos",
         VInt (Z.of_nat (List.length (filter (fun u => is_one (u_ativo u)) us))));
        ("timestamp", VStr (datetime_now_isoformat env)) ]
  | None, _ =>
      status_except env (OperationalError "no such table: empresas")
  | Some _, None =>
      status_except env (OperationalError "no such table: usuarios")
  end.

(** Ascending order on a TEXT key. *)
Definition ascending {A} (key : A -> string) (a b : A) : Prop :=
  String.leb (key a) (key b) = true.

(** A file in which a user outlived its company: the company row is gone,
    and nothing enforces the foreign key. *)
Definition orphan_store : store :=
  mkStore
    (Some [])
    (Some [seed_usuario "2026-11-04 12:00:00" 1])
    (Some [("empresas", 1); ("usuarios", 1)])
    [].

(** Stores and worlds that agree on everything but the [senha_hash]
    column, and operations that cannot tell them apart. *)
Definition set_senha_hash (h : string) (u : usuarios_row) : usuarios_row :=
  mkUsuario (u_id u) (u_empresa_id u) (u_nome u) (u_email u) h
            (u_funcao u) (u_ativo u) (u_created_at u).

Definition erase_hash (u : usuarios_row) : usuarios_row :=
  set_senha_hash EmptyString u.

Definition erase_joined (ue : usuarios_row * empresas_row)
  : usuarios_row * empresas_row :=
  (erase_hash (fst ue), snd ue).

Definition sim_store (s1 s2 : store) : Prop :=
  empresas s1 = empresas s2
  /\ option_map (map erase_hash) (usuarios s1)
     = option_map (map erase_hash) (usuarios s2)
  /\ sqlite_sequence s1 = sqlite_sequence s2
  /\ other_tables s1 = other_tables s2.

Definition sim_tx (t1 t2 : option store) : Prop :=
  match t1, t2 with
  | Some a, Some b => sim_store a b
  | None, None => True
  | _, _ => False
  end.

Definition sim_world (w1 w2 : world) : Prop :=
  sim_store (disk w1) (disk w2)
  /\ sim_tx (tx w1) (tx w2)
  /\ faults w1 = faults w2.

Definition respects {A} (m : M A) : Prop :=
  forall w1 w2,
    sim_world w1 w2 ->
    fst (m w1) = fst (m w2) /\ sim_world (snd (m w1)) (snd (m w2)).

Definition sim_outcome (o1 o2 : outcome store) : Prop :=
  match o1, o2 with
  | Return a, Return b => sim_store a b
  | Raise e1, Raise e2 => e1 = e2
  | _, _ => False
  end.

Ltac sim_split :=
  unfold sim_world; simpl;
  repeat match goal with |- _ /\ _ => split end;
  try reflexivity; try assumption.

(** The database layer raises [sqlite3] errors only. *)
Definition sqlite_error (e : exn) : bool :=
  match e with
  | OperationalError _ | IntegrityError _ => true
  | _ => false
  end.

Definition raises_sqlite {A} (m : M A) : Prop :=
  forall w e w', m w = (Raise e, w') -> sqlite_error e = true.

(* ================================================================== *)
(** ** Vocabulary of the further properties *)
(* ================================================================== *)

(** The store after the two CREATE TABLE IF NOT EXISTS statements. *)
Definition created (s : store) : store :=
  mkStore (Some (rows (empresas s))) (Some (rows (usuarios s)))
          (match empresas s, usuarios s with
           | Some _, Some _ => sqlite_sequence s
           | _, _ => sqlite3.ensure_sequence s
           end)
          (other_tables s).

Definition admin_email : string := "admin@oticavision.com.br".

Definition full : exn := OperationalError "database or disk is full".

Definition unique_failed : exn :=
  IntegrityError "UNIQUE constraint failed: usuarios.email".

(** The identifiers AUTOINCREMENT gives to the two seed rows. *)
Definition seed_empresa_id (s : store) : Z :=
  Z.max (sqlite3.seq_of "empresas" s) 0 + 1.

Definition seed_usuario_id (s : store) : Z :=
  Z.max (sqlite3.seq_of "usuarios" s)
        (sqlite3.max_rowid (map u_id (rows (usuarios s)))) + 1.

(** The outcome of the bootstrapper on a store that can be opened, and the
    file it leaves, in closed form. *)
Definition bootstrap (ts : string) (s : store) : outcome unit * store :=
  match rows (empresas s) with
  | _ :: _ => (Return tt, created s)
  | [] =>
      if seed_empresa_id s - 1 >=? sqlite3.MAX_ROWID
      then (Raise full, created s)
      else if seed_usuario_id s - 1 >=? sqlite3.MAX_ROWID
      then (Raise full, created s)
      else if existsb (fun u => String.eqb (u_email u) admin_email)
                      (rows (usuarios s))
      then (Raise unique_failed, created s)
      else
        (Return tt,
         mkStore
           (Some [seed_empresa ts (seed_empresa_id s)])
           (Some (rows (usuarios s) ++ [seed_usuario ts (seed_usuario_id s)]))
           (Some (sqlite3.assoc_set "usuarios" (seed_usuario_id s)
                    (sqlite3.assoc_set "empresas" (seed_empresa_id s)
                       (rows (sqlite_sequence s)))))
           (other_tables s))
  end.

(** The keys the schema declares: the two primary keys and the UNIQUE
    index on the email. *)
Definition keys_unique (s : store) : Prop :=
  NoDup (map e_id (rows (empresas s)))
  /\ NoDup (map u_id (rows (usuarios s)))
  /\ NoDup (map u_email (rows (usuarios s))).

(** The error the next [sqlite3.connect] raises, [None] when it opens the
    file. *)
Definition first_fault (w : world) : option string :=
  match faults w with
  | Some msg :: _ => Some msg
  | _ => None
  end.

(** Both tables exist and a company row is there. *)
Definition schema_ready (s : store) : Prop :=
  exists e es us, empresas s = Some (e :: es) /\ usuarios s = Some us.

(** An operation that leaves the file alone when the file can be opened. *)
Definition read_only {A} (m : M A) : Prop :=
  forall w,
    faults w = [] ->
    disk (snd (m w)) = disk w /\ faults (snd (m w)) = [].

(** A company row with another [ativo]. *)
Definition set_e_ativo (a : option Z) (e : empresas_row) : empresas_row :=
  mkEmpresa (e_id e) (e_nome e) (e_cnpj e) (e_email e) (e_telefone e) a
            (e_created_at e).

(** *** Configuration: the path of the database file *)

Module str.

(** [s.startswith(old)] *)
Fixpoint startswith (s old : string) {struct old} : bool :=
  match old with
  | EmptyString => true
  | String a old' =>
      match s with
      | EmptyString => false
      | String b s' => Ascii.eqb a b && startswith s' old'
      end
  end.

(** [old in s] *)
Fixpoint contains (s old : string) : bool :=
  startswith s old
  || match s with
     | EmptyString => false
     | String _ s' => contains s' old
     end.

(** [s.replace(old, new)]: every occurrence of [old], from the left,
    without overlap; [skip] counts the characters of the occurrence just
    replaced that are still to be passed over.  An empty [old] occurs
    before every character and at the end. *)
Fixpoint replace_from (skip : nat) (s old new : string) : string :=
  match s with
  | EmptyString =>
      match old with EmptyString => new | String _ _ => EmptyString end
  | String c s' =>
      match skip with
      | S k => replace_from k s' old new
      | O =>
          match old with
          | EmptyString => new ++ String c (replace_from 0 s' old new)
          | String _ old' =>
              if startswith s old
              then new ++ replace_from (String.length old') s' old new
              else String c (replace_from 0 s' old new)
          end
      end
  end%string.

Definition replace (s old new : string) : string := replace_from 0 s old new.

End str.

(** [DB_PATH = DATABASE_URL.replace("sqlite:///", "").replace("sqlite://", "")] *)
Definition DB_PATH (DATABASE_URL : string) : string :=
  str.replace (str.replace DATABASE_URL "sqlite:///" EmptyString)
              "sqlite://" EmptyString.

(* ================================================================== *)
(** ** Theorems *)
(* ================================================================== *)

(** *** [hashlib]: test vectors *)

Example sha256_empty :
  hashlib.sha256_hexdigest EmptyString =
  "e3b0c44298fc1c149afbf4c8996fb92427ae41e4649b934ca495991b7852b855".
Proof. vm_compute. reflexivity. Qed.

Example sha256_abc :
  hashlib.sha256_hexdigest "abc" =
  "ba7816bf8f01cfea414140de5dae2223b00361a396177a9cb410ff61f20015ad".
Proof. vm_compute. reflexivity. Qed.

Example sha256_123456 :
  hashlib.sha256_hexdigest "123456" =
  "8d969eef6ecad3c29a3a629280e686cf0c3f5d5a86aff3ca12020c923adc6c92".
Proof. vm_compute. reflexivity. Qed.

Example sha256_two_blocks :
  hashlib.sha256_hexdigest
    "abcdbcdecdefdefgefghfghighijhijkijkljklmklmnlmnomnopnopq" =
  "248d6a61d20638b8e5c026930c3e6039a33ce45964ff2167f6ecedd419db06c1".
Proof. vm_compute. reflexivity. Qed.

(** *** Connections *)

Lemma connect_reachable (s : store) :
  sqlite3.connect (reachable s) = (Return tt, reachable s).
Proof. reflexivity. Qed.

Lemma connect_return (w w' : world) :
  sqlite3.connect w = (Return tt, w') ->
  disk w' = disk w /\ tx w' = None.
Proof.
  unfold sqlite3.connect. destruct (faults w) as [|[m|] f]; intro H.
  - inversion H. split; reflexivity.
  - discriminate.
  - inversion H. split; reflexivity.
Qed.

Lemma get_db_reachable (env : environ) (s : store) :
  get_db env (reachable s) = (Return tt, reachable s).
Proof. reflexivity. Qed.

(** Whenever [get_db] returns, it returns a fresh connection on the file
    it leaves. *)
Lemma get_db_return (env : environ) (w w' : world) :
  get_db env w = (Return tt, w') -> tx w' = None.
Proof.
  unfold get_db, try_except.
  destruct (sqlite3.connect w) as [[[]|e] w1] eqn:C.
  - intro H. inversion H. subst w1.
    now apply connect_return in C.
  - unfold bind.
    destruct (criar_banco_basico env w1) as [[[]|e1] w2]; [|discriminate].
    destruct (sqlite3.connect w2) as [[[]|e2] w3] eqn:C2; [|discriminate].
    intro H. inversion H. subst w3.
    now apply connect_return in C2.
Qed.

Lemma get_db_outcome (env : environ) (w : world) :
  (exists w' f,
     get_db env w = (Return tt, w')
     /\ w' = mkWorld (store_seen env w) None f)
  \/ (exists e w', get_db env w = (Raise e, w')).
Proof.
  destruct (get_db env w) as [[[]|e] w'] eqn:G.
  - left. exists w', (faults w'). split; [reflexivity|].
    unfold store_seen. rewrite G. simpl.
    apply get_db_return in G. destruct w' as [d t f]. simpl in G.
    now subst t.
  - right. now exists e, w'.
Qed.

(** *** Only [sqlite3] errors come out of the database layer *)

Lemma raises_sqlite_bind {A B} (m : M A) (f : A -> M B) :
  raises_sqlite m -> (forall a, raises_sqlite (f a)) ->
  raises_sqlite (bind m f).
Proof.
  intros Hm Hf w e w'. unfold bind.
  destruct (m w) as [[a|e1] w1] eqn:E.
  - apply Hf.
  - intro H. inversion H. subst. eapply Hm. eassumption.
Qed.

Lemma raises_sqlite_ret {A} (a : A) : raises_sqlite (ret a).
Proof. intros w e w' H. discriminate. Qed.

Lemma raises_sqlite_connect : raises_sqlite sqlite3.connect.
Proof.
  intros w e w'. unfold sqlite3.connect.
  destruct (faults w) as [|[m|] f]; intro H; inversion H. reflexivity.
Qed.

Lemma raises_sqlite_ddl f : raises_sqlite (sqlite3.ddl f).
Proof. intros w e w'. unfold sqlite3.ddl. destruct (tx w); discriminate. Qed.

Lemma raises_sqlite_commit : raises_sqlite sqlite3.commit.
Proof. intros w e w' H. discriminate. Qed.

Lemma raises_sqlite_close : raises_sqlite sqlite3.close.
Proof. intros w e w' H. discriminate. Qed.

Lemma next_rowid_raises name ids s e :
  sqlite3.next_rowid name ids s = Raise e -> sqlite_error e = true.
Proof.
  unfold sqlite3.next_rowid.
  destruct (_ >=? _); intro H; inversion H. reflexivity.
Qed.

Lemma raises_sqlite_select_count_empresas : raises_sqlite select_count_empresas.
Proof.
  intros w e w'. unfold select_count_empresas, sqlite3.select.
  destruct (empresas (view w)); intro H; inversion H. reflexivity.
Qed.

Lemma raises_sqlite_insert_empresa ts a b c d :
  raises_sqlite (insert_empresa ts a b c d).
Proof.
  intros w e w'. unfold insert_empresa, sqlite3.dml.
  destruct (empresas (view w)).
  - destruct (sqlite3.next_rowid _ _ _) eqn:N; intro H; inversion H.
    subst. eapply next_rowid_raises; eassumption.
  - intro H; inversion H. reflexivity.
Qed.

Lemma raises_sqlite_insert_usuario ts i a b c d :
  raises_sqlite (insert_usuario ts i a b c d).
Proof.
  intros w e w'. unfold insert_usuario, sqlite3.dml.
  destruct (usuarios (view w)).
  - destruct (sqlite3.next_rowid _ _ _) eqn:N.
    + destruct (existsb _ _); intro H; inversion H. reflexivity.
    + intro H; inversion H. subst. eapply next_rowid_raises; eassumption.
  - intro H; inversion H. reflexivity.
Qed.

Lemma raises_sqlite_criar_banco_basico env :
  raises_sqlite (criar_banco_basico env).
Proof.
  unfold criar_banco_basico.
  repeat first
    [ apply raises_sqlite_bind; [|intro]
    | apply raises_sqlite_connect
    | apply raises_sqlite_ddl
    | apply raises_sqlite_commit
    | apply raises_sqlite_close
    | apply raises_sqlite_select_count_empresas
    | apply raises_sqlite_insert_empresa
    | apply raises_sqlite_insert_usuario
    | apply raises_sqlite_ret
    | match goal with |- raises_sqlite (if ?c then _ else _) => destruct c end ].
Qed.

Lemma raises_sqlite_get_db env : raises_sqlite (get_db env).
Proof.
  intros w e w'. unfold get_db, try_except.
  destruct (sqlite3.connect w) as [[[]|e1] w1]; [discriminate|].
  apply (raises_sqlite_bind (criar_banco_basico env) (fun _ => sqlite3.connect)).
  - apply raises_sqlite_criar_banco_basico.
  - intro. apply raises_sqlite_connect.
Qed.

(** *** The bootstrapper on the empty file: C2 *)

Lemma criar_banco_basico_empty (env : environ) :
  criar_banco_basico env (reachable empty_store)
  = (Return tt, reachable (seeded_store (CURRENT_TIMESTAMP env))).
Proof. reflexivity. Qed.

(** With a company in the table the bootstrapper inserts nothing; it
    creates the [usuarios] table if that one is missing. *)
Lemma criar_banco_basico_no_seed (env : environ) (s : store)
    (e : empresas_row) (es : list empresas_row) :
  empresas s = Some (e :: es) ->
  criar_banco_basico env (reachable s)
  = (Return tt,
     reachable (match usuarios s with
                | Some _ => s
                | None => mkStore (empresas s) (Some [])
                            (sqlite3.ensure_sequence s) (other_tables s)
                end)).
Proof.
  intro E. destruct s as [es0 us0 sq ot]. simpl in E. subst es0.
  unfold criar_banco_basico, bind, reachable. simpl.
  destruct us0 as [us|]; reflexivity.
Qed.

(** C2.  Two runs of the bootstrapper in a row, starting from the empty
    file, both return; the file then holds exactly one company row and
    exactly one user row, and the second run has left the file as the
    first one made it: no table created, no row inserted. *)
Theorem criar_banco_basico_twice (env1 env2 : environ) :
  let w1 := snd (criar_banco_basico env1 (reachable empty_store)) in
  let w2 := snd (criar_banco_basico env2 w1) in
  result (criar_banco_basico env1) (reachable empty_store) = Return tt
  /\ result (criar_banco_basico env2) w1 = Return tt
  /\ (exists e u, empresas (disk w2) = Some [e] /\ usuarios (disk w2) = Some [u])
  /\ disk w2 = disk w1.
Proof.
  intros w1 w2. subst w2 w1. unfold result.
  rewrite criar_banco_basico_empty. simpl snd.
  rewrite (criar_banco_basico_no_seed env2
             (seeded_store (CURRENT_TIMESTAMP env1)) _ [] eq_refl).
  simpl. repeat split. eauto.
Qed.

(** *** The bootstrapper on an arbitrary store *)

Lemma assoc_set_other (k k' : string) (v : Z) (l : list (string * Z)) :
  k <> k' -> sqlite3.assoc k (sqlite3.assoc_set k' v l) = sqlite3.assoc k l.
Proof.
  intro N. induction l as [|[a b] l IH]; simpl.
  - apply String.eqb_neq in N. now rewrite N.
  - destruct (String.eqb k' a) eqn:Q; simpl.
    + apply String.eqb_eq in Q. subst a.
      apply String.eqb_neq in N. now rewrite N.
    + destruct (String.eqb k a); [reflexivity|exact IH].
Qed.

(** What the bootstrapper does on a store that can be opened and holds no
    company row: provided the identifiers are not exhausted and no user has
    the administrator's email, it inserts one company, under the next
    AUTOINCREMENT identifier, and one user, with [empresa_id] 1. *)
Lemma criar_banco_basico_seeds (env : environ) (s : store) :
  rows (empresas s) = [] ->
  Z.max (sqlite3.seq_of "empresas" s) 0 < sqlite3.MAX_ROWID ->
  Z.max (sqlite3.seq_of "usuarios" s)
        (sqlite3.max_rowid (map u_id (rows (usuarios s)))) < sqlite3.MAX_ROWID ->
  existsb (fun u => String.eqb (u_email u) "admin@oticavision.com.br")
          (rows (usuarios s)) = false ->
  exists sq,
    criar_banco_basico env (reachable s)
    = (Return tt,
       reachable
         (mkStore
            (Some [seed_empresa (CURRENT_TIMESTAMP env)
                     (Z.max (sqlite3.seq_of "empresas" s) 0 + 1)])
            (Some (rows (usuarios s) ++
                   [seed_usuario (CURRENT_TIMESTAMP env)
                      (Z.max (sqlite3.seq_of "usuarios" s)
                         (sqlite3.max_rowid (map u_id (rows (usuarios s)))) + 1)]))
            (Some sq) (other_tables s))).
Proof.
  intros E M1 M2 X.
  unfold seed_usuario, seed_empresa.
  unfold criar_banco_basico.
  generalize (hashlib.sha256_hexdigest "123456"). intro h.
  assert (G : forall m, m < sqlite3.MAX_ROWID -> (m >=? sqlite3.MAX_ROWID) = false).
  { intros m Hm. unfold Z.geb. destruct (m ?= sqlite3.MAX_ROWID) eqn:C; try reflexivity.
    - apply Z.compare_eq in C. lia.
    - apply Z.compare_gt_iff in C. lia. }
  destruct s as [[[|e es]|] [us|] [sq|] ot]; try discriminate;
    unfold sqlite3.next_rowid, sqlite3.seq_of in *;
    cbn -[Z.max Z.geb Z.add sqlite3.MAX_ROWID sqlite3.max_rowid existsb] in *.
  all: unfold bind, insert_empresa, insert_usuario, sqlite3.dml, view,
         sqlite3.next_rowid, sqlite3.seq_of, sqlite3.bump_sequence;
       cbn -[Z.max Z.geb Z.add sqlite3.MAX_ROWID sqlite3.max_rowid existsb].
  all: change (sqlite3.max_rowid []) with 0.
  all: rewrite (G _ M1);
       cbn -[Z.max Z.geb Z.add sqlite3.MAX_ROWID sqlite3.max_rowid existsb].
  all: try rewrite assoc_set_other by discriminate.
  all: rewrite (G _ M2);
       cbn -[Z.max Z.geb Z.add sqlite3.MAX_ROWID sqlite3.max_rowid existsb].
  all: try rewrite X.
  all: eexists; reflexivity.
Qed.

(** The seeded user references the seeded company exactly when no company
    identifier was ever issued before. *)
Lemma seed_reference (ts : string) (s : store) :
  u_empresa_id (seed_usuario ts 1)
  = e_id (seed_empresa ts (Z.max (sqlite3.seq_of "empresas" s) 0 + 1))
  <-> sqlite3.seq_of "empresas" s <= 0.
Proof. simpl. lia. Qed.

(** With no company row but a user that already has the administrator's
    email, the INSERT of the user violates the UNIQUE index: the
    bootstrapper raises, nothing is committed, the file keeps its rows. *)
Lemma criar_banco_basico_unique_violation (env : environ) :
  let s := mkStore (Some [])
             (Some [seed_usuario "2026-01-01 00:00:00" 1])
             (Some [("empresas", 1); ("usuarios", 1)]) [] in
  result (criar_banco_basico env) (reachable s)
  = Raise (IntegrityError "UNIQUE constraint failed: usuarios.email")
  /\ disk_after (criar_banco_basico env) (reachable s) = s.
Proof. split; reflexivity. Qed.

(** *** The seeded user and the seeded company: C3 *)

(** C3 at the failing input.  On a file whose [empresas] table is empty but
    has held three rows before, the bootstrapper seeds: the company gets
    the identifier 4, the user is written with [empresa_id] 1, so the
    seeded user references no company at all, and the seeded
    administrator cannot log in. *)
Theorem criar_banco_basico_seed_user_dangling :
  let s1 := disk_after (criar_banco_basico default_environ)
                       (reachable emptied_store) in
  rows (empresas emptied_store) = []
  /\ (exists e u,
        empresas s1 = Some [e] /\ usuarios s1 = Some [u]
        /\ e_nome e = "Ótica Vision" /\ e_id e = 4
        /\ u_email u = "admin@oticavision.com.br" /\ u_empresa_id u = 1
        /\ u_empresa_id u <> e_id e)
  /\ result (login default_environ
               (mkLoginRequest "admin@oticavision.com.br" "123456"))
            (reachable s1)
     = Raise InvalidCredentials.
Proof.
  split; [reflexivity|]. split.
  - eexists. eexists. vm_compute. repeat split. discriminate.
  - vm_compute. reflexivity.
Qed.

(** *** What [login] computes *)

Lemma login_run (env : environ) (request : LoginRequest) (w : world) :
  result (login env request) w =
  match get_db env w with
  | (Return _, _) => login_answer env request (store_seen env w)
  | (Raise e, _) => Raise (HTTPException 500 ("Erro no login: " ++ str e)%string)
  end.
Proof.
  unfold result, login, try_except, login_try.
  unfold bind at 1.
  destruct (get_db_outcome env w) as [(w' & f' & G & Hw')|(e & w' & G)]; rewrite G.
  - unfold login_answer. rewrite Hw'.
    unfold bind at 1, select_login, sqlite3.select, view. simpl tx. cbv iota.
    simpl disk.
    destruct (usuarios (store_seen env w)) as [us|] eqn:U;
      [destruct (empresas (store_seen env w)) as [es|] eqn:E|].
    + destruct (filter _ _) as [|[u e] rest]; [reflexivity|].
      unfold jwt.encode. destruct (jwt_key_error env); reflexivity.
    + unfold missing_join_table. rewrite U. reflexivity.
    + unfold missing_join_table. rewrite U. reflexivity.
  - pose proof (raises_sqlite_get_db env w e w' G) as S.
    destruct e; try discriminate; reflexivity.
Qed.

(** *** The join and the WHERE clause of [login] *)

Lemma is_one_spec (o : option Z) : is_one o = true <-> o = Some 1.
Proof.
  destruct o as [z|]; simpl.
  - rewrite Z.eqb_eq. split; [now intros ->|now intros [= ->]].
  - split; discriminate.
Qed.

Lemma in_join (us : list usuarios_row) (es : list empresas_row)
    (u : usuarios_row) (e : empresas_row) :
  In (u, e) (usuarios_join_empresas us es) <->
  In u us /\ In e es /\ u_empresa_id u = e_id e.
Proof.
  unfold usuarios_join_empresas, join_empresas.
  rewrite in_flat_map. split.
  - intros (u' & Hu & H). apply in_map_iff in H.
    destruct H as (e' & [= <- <-] & He).
    apply filter_In in He. destruct He as [He Hid].
    apply Z.eqb_eq in Hid. auto.
  - intros (Hu & He & Hid). exists u. split; [assumption|].
    apply in_map. apply filter_In. split; [assumption|].
    now apply Z.eqb_eq.
Qed.

Lemma login_where_spec (em h : string) (u : usuarios_row) (e : empresas_row) :
  login_where em h (u, e) = true <->
  u_email u = em /\ u_senha_hash u = h /\ u_ativo u = Some 1.
Proof.
  unfold login_where. simpl.
  rewrite !andb_true_iff, !String.eqb_eq, is_one_spec. tauto.
Qed.

Lemma in_login_rows (us : list usuarios_row) (es : list empresas_row)
    (request : LoginRequest) (u : usuarios_row) (e : empresas_row) :
  In (u, e)
     (filter (login_where (email request)
                (hashlib.sha256_hexdigest (password request)))
             (usuarios_join_empresas us es)) <->
  active_login us es request u e.
Proof.
  rewrite filter_In, in_join, login_where_spec.
  unfold active_login. tauto.
Qed.

Lemma login_answer_invalid (env : environ) (request : LoginRequest)
    (s : store) (us : list usuarios_row) (es : list empresas_row) :
  usuarios s = Some us -> empresas s = Some es ->
  (login_answer env request s = Raise InvalidCredentials <->
   ~ exists u e, active_login us es request u e).
Proof.
  intros U E. unfold login_answer. rewrite U, E.
  destruct (filter _ _) as [|[u e] rest] eqn:F.
  - split; [|reflexivity]. intros _ (u & e & H).
    apply in_login_rows in H. rewrite F in H. destruct H.
  - split.
    + destruct (jwt_key_error env); discriminate.
    + intro H. exfalso. apply H. exists u, e.
      apply in_login_rows. rewrite F. now left.
Qed.

Lemma login_answer_found (env : environ) (request : LoginRequest)
    (s : store) (us : list usuarios_row) (es : list empresas_row)
    (r : LoginResponse) :
  usuarios s = Some us -> empresas s = Some es ->
  login_answer env request s = Return r ->
  exists u e, active_login us es request u e /\ r = login_payload env (u, e).
Proof.
  intros U E. unfold login_answer. rewrite U, E.
  destruct (filter _ _) as [|[u e] rest] eqn:F; [discriminate|].
  destruct (jwt_key_error env); [discriminate|].
  intros [= <-]. exists u, e. split; [|reflexivity].
  apply in_login_rows. rewrite F. now left.
Qed.

(** With both tables in place, [login] fails in two ways only: nobody
    matches, or somebody does and PyJWT refuses the secret. *)
Lemma login_answer_raise (env : environ) (request : LoginRequest)
    (s : store) (us : list usuarios_row) (es : list empresas_row) (e : exn) :
  usuarios s = Some us -> empresas s = Some es ->
  login_answer env request s = Raise e ->
  e = InvalidCredentials
  \/ (exists msg, jwt_key_error env = Some msg
                  /\ e = HTTPException 500 ("Erro no login: " ++ msg)).
Proof.
  intros U E. unfold login_answer. rewrite U, E.
  destruct (filter _ _) as [|[u0 e0] rest].
  - intros [= <-]. now left.
  - destruct (jwt_key_error env) as [msg|]; [|discriminate].
    intros [= <-]. right. now exists msg.
Qed.

(** When PyJWT accepts the secret, a match is answered. *)
Lemma login_answer_accepts (env : environ) (request : LoginRequest)
    (s : store) (us : list usuarios_row) (es : list empresas_row)
    (u : usuarios_row) (e : empresas_row) :
  jwt_key_error env = None ->
  usuarios s = Some us -> empresas s = Some es ->
  active_login us es request u e ->
  exists r, login_answer env request s = Return r.
Proof.
  intros K U E A. unfold login_answer. rewrite U, E, K.
  apply in_login_rows in A.
  destruct (filter _ _) as [|ue rest]; [destruct A|]. eauto.
Qed.

Lemma unique_email (us : list usuarios_row) (u u' : usuarios_row) :
  NoDup (map u_email us) -> In u us -> In u' us ->
  u_email u = u_email u' -> u = u'.
Proof.
  induction us as [|x us IH]; simpl; [tauto|].
  intros N Hu Hu' Heq. inversion N as [|? ? Hx N']. subst.
  destruct Hu as [->|Hu], Hu' as [->|Hu'].
  - reflexivity.
  - exfalso. apply Hx. rewrite Heq. now apply in_map.
  - exfalso. apply Hx. rewrite <- Heq. now apply in_map.
  - now apply IH.
Qed.

Lemma login_reachable (env : environ) (request : LoginRequest) (s : store) :
  result (login env request) (reachable s) = login_answer env request s.
Proof. rewrite login_run. reflexivity. Qed.

(** *** [login] and its two errors: C1 *)

(** C1, as amended.  On a store that can be opened and holds both tables,
    [login] fails with [InvalidCredentials] exactly when no user row has
    the request's email, the digest of the request's password and
    [ativo = 1] and is joined to a company.  In particular, emails being
    unique, the right email with a wrong password, and the email of a user
    that is not active whatever the password, both give
    [InvalidCredentials], which is not the internal error. *)
Theorem login_invalid_credentials_iff (env : environ) (request : LoginRequest)
    (s : store) (us : list usuarios_row) (es : list empresas_row) :
  usuarios s = Some us -> empresas s = Some es ->
  let out := result (login env request) (reachable s) in
  (out = Raise (HTTPException 401 "Credenciais inválidas") <->
   ~ exists u e,
       In u us /\ In e es /\ u_empresa_id u = e_id e
       /\ u_email u = email request
       /\ u_senha_hash u = hashlib.sha256_hexdigest (password request)
       /\ u_ativo u = Some 1)
  /\ (forall u, NoDup (map u_email us) -> In u us ->
        u_email u = email request ->
        u_senha_hash u <> hashlib.sha256_hexdigest (password request) ->
        out = Raise (HTTPException 401 "Credenciais inválidas"))
  /\ (forall u, NoDup (map u_email us) -> In u us ->
        u_email u = email request ->
        u_ativo u <> Some 1 ->
        out = Raise (HTTPException 401 "Credenciais inválidas")).
Proof.
  intros U E out. subst out. rewrite login_reachable.
  pose proof (login_answer_invalid env request s us es U E) as Hiff.
  unfold InvalidCredentials, active_login in Hiff.
  split; [exact Hiff|]. split.
  - intros u N Hu Hem Hne. apply Hiff. intros (u' & e' & H).
    destruct H as (Hu' & _ & _ & Hem' & Hh & _).
    assert (u = u') by (apply (unique_email us); congruence).
    subst u'. contradiction.
  - intros u N Hu Hem Hne. apply Hiff. intros (u' & e' & H).
    destruct H as (Hu' & _ & _ & Hem' & _ & Ha).
    assert (u = u') by (apply (unique_email us); congruence).
    subst u'. contradiction.
Qed.

(** The seeded administrator with a wrong password, and the same
    administrator, not active, with the right one. *)
Lemma login_invalid_credentials_iff_witness :
  result (login default_environ
            (mkLoginRequest "admin@oticavision.com.br" "654321"))
         (reachable (seeded_store "2026-11-04 12:00:00"))
  = Raise (HTTPException 401 "Credenciais inválidas")
  /\ result (login default_environ
               (mkLoginRequest "admin@oticavision.com.br" "123456"))
            (reachable
               (mkStore
                  (Some [seed_empresa "2026-11-04 12:00:00" 1])
                  (Some [mkUsuario 1 1 "Administrador"
                           "admin@oticavision.com.br"
                           (hashlib.sha256_hexdigest "123456")
                           (Some "admin") (Some 0)
                           (Some "2026-11-04 12:00:00")])
                  (Some [("empresas", 1); ("usuarios", 1)]) []))
     = Raise (HTTPException 401 "Credenciais inválidas").
Proof.
  split.
  - refine (proj1 (proj2
      (login_invalid_credentials_iff default_environ
         (mkLoginRequest "admin@oticavision.com.br" "654321")
         (seeded_store "2026-11-04 12:00:00") _ _ eq_refl eq_refl))
      _ _ (or_introl eq_refl) eq_refl _).
    + repeat constructor. simpl. tauto.
    + vm_compute. discriminate.
  - refine (proj2 (proj2
      (login_invalid_credentials_iff default_environ
         (mkLoginRequest "admin@oticavision.com.br" "123456")
         (mkStore _ _ _ _)
         [mkUsuario 1 1 "Administrador" "admin@oticavision.com.br"
            (hashlib.sha256_hexdigest "123456") (Some "admin") (Some 0)
            (Some "2026-11-04 12:00:00")]
         [seed_empresa "2026-11-04 12:00:00" 1] eq_refl eq_refl))
      _ _ (or_introl eq_refl) eq_refl _).
    + repeat constructor. simpl. tauto.
    + discriminate.
Defined.

(** C1, as stated, fails: "for every login request" takes in the requests
    made while the file cannot be opened.  The seeded file then holds no
    row with the administrator's email and the digest of "654321", and
    [login] answers the correct email and wrong password with the internal
    error that [except Exception] makes of the failure, not with
    [InvalidCredentials]. *)
Lemma login_unreachable_internal_error :
  let request := mkLoginRequest "admin@oticavision.com.br" "654321" in
  let s := seeded_store "2026-11-04 12:00:00" in
  let w := mkWorld s None [ Some "unable to open database file";
                            Some "unable to open database file" ] in
  let out := result (login default_environ request) w in
  out = Raise (HTTPException 500
                 "Erro no login: unable to open database file")
  /\ ~ (out = Raise (HTTPException 401 "Credenciais inválidas") <->
        ~ exists u e,
            In u (rows (usuarios s)) /\ In e (rows (empresas s))
            /\ u_empresa_id u = e_id e
            /\ u_email u = email request
            /\ u_senha_hash u = hashlib.sha256_hexdigest (password request)
            /\ u_ativo u = Some 1).
Proof.
  intros request s w out. split; [reflexivity|].
  intros [_ H].
  assert (E : out = Raise (HTTPException 401 "Credenciais inválidas")).
  { apply H. intros (u & e & Hu & _ & _ & _ & Hh & _).
    destruct Hu as [<-|[]]. vm_compute in Hh. discriminate. }
  discriminate E.
Qed.

(** On a file without the tables the answer is the internal error as
    well; the amended claim leaves that file out. *)
Lemma login_empty_store_internal_error :
  result (login default_environ
            (mkLoginRequest "admin@oticavision.com.br" "123456"))
         (reachable empty_store)
  = Raise (HTTPException 500 "Erro no login: no such table: usuarios").
Proof. reflexivity. Qed.

(** *** What a successful [login] returns: C4 and C5 *)

Lemma login_return (env : environ) (request : LoginRequest) (w : world)
    (r : LoginResponse) :
  result (login env request) w = Return r ->
  exists us es u e,
    usuarios (store_seen env w) = Some us
    /\ empresas (store_seen env w) = Some es
    /\ active_login us es request u e
    /\ r = login_payload env (u, e).
Proof.
  rewrite login_run.
  destruct (get_db env w) as [[[]|e0] w']; [|discriminate].
  intro H.
  destruct (usuarios (store_seen env w)) as [us|] eqn:U;
    [destruct (empresas (store_seen env w)) as [es|] eqn:E|].
  - destruct (login_answer_found env request _ us es r U E H)
      as (u & e & Ha & Hr).
    exists us, es, u, e. auto.
  - unfold login_answer in H. rewrite U, E in H. discriminate.
  - unfold login_answer in H. rewrite U in H. discriminate.
Qed.

(** C4, as amended.  Whenever [login] succeeds, the payload signed into
    the token is made of the identifier of the matched user, the
    identifier of that user's company, the email, the role, and an expiry
    of seven days after the instant of issue.  When PyJWT accepts the
    configured secret, the seeded administrator, on the store the
    bootstrapper makes from the empty file, logs in with "123456", and the
    token carries the role "admin" and the identifier of the seeded
    company. *)
Theorem login_token_claims :
  (forall env request w r,
     result (login env request) w = Return r ->
     exists us es u e,
       usuarios (store_seen env w) = Some us
       /\ empresas (store_seen env w) = Some es
       /\ active_login us es request u e
       /\ token r =
          jwt.signed
            [ ("user_id", VInt (u_id u));
              ("empresa_id", VInt (u_empresa_id u));
              ("email", VStr (u_email u));
              ("funcao",
               match u_funcao u with Some f => VStr f | None => VNone end);
              ("exp",
               VDatetime (datetime_utcnow env + 7 * 86400 * 1000000)) ]
            (SECRET_KEY env) "HS256")
  /\ (forall env0 env,
        jwt_key_error env = None ->
        let s := disk_after (criar_banco_basico env0) (reachable empty_store) in
        exists r e,
          result (login env
                    (mkLoginRequest "admin@oticavision.com.br" "123456"))
                 (reachable s) = Return r
          /\ empresas s = Some [e]
          /\ e_nome e = "Ótica Vision"
          /\ getitem (jwt.claims (token r)) "funcao" = Some (VStr "admin")
          /\ getitem (jwt.claims (token r)) "empresa_id" = Some (VInt (e_id e))).
Proof.
  split.
  - intros env request w r H.
    destruct (login_return env request w r H) as (us & es & u & e & U & E & A & ->).
    exists us, es, u, e. split; [exact U|]. split; [exact E|].
    split; [exact A|]. reflexivity.
  - intros env0 env K s. subst s. unfold disk_after.
    rewrite criar_banco_basico_empty. simpl snd. simpl disk.
    rewrite login_reachable.
    unfold login_answer, seeded_store, seed_usuario, seed_empresa.
    simpl password. simpl email.
    generalize (hashlib.sha256_hexdigest "123456"). intro h.
    simpl. unfold login_where. simpl. rewrite String.eqb_refl. simpl.
    rewrite K.
    eexists. eexists. split; [reflexivity|]. repeat split.
Qed.

(** Both parts of C4 for the seeded administrator under the default
    secret. *)
Lemma login_token_claims_witness :
  (exists us es u e,
     usuarios (store_seen default_environ
                 (reachable (seeded_store "2026-11-04 12:00:00"))) = Some us
     /\ empresas (store_seen default_environ
                    (reachable (seeded_store "2026-11-04 12:00:00"))) = Some es
     /\ active_login us es
          (mkLoginRequest "admin@oticavision.com.br" "123456") u e
     /\ token (login_payload default_environ
                 ( mkUsuario 1 1 "Administrador" "admin@oticavision.com.br"
                      (hashlib.sha256_hexdigest "123456") (Some "admin")
                      (Some 1) (Some "2026-11-04 12:00:00"),
                   mkEmpresa 1 "Ótica Vision" (Some "12.345.678/0001-90")
                      (Some "contato@oticavision.com.br")
                      (Some "(11) 98765-4321") (Some 1)
                      (Some "2026-11-04 12:00:00") ))
        = jwt.signed
            [ ("user_id", VInt (u_id u));
              ("empresa_id", VInt (u_empresa_id u));
              ("email", VStr (u_email u));
              ("funcao",
               match u_funcao u with Some f => VStr f | None => VNone end);
              ("exp",
               VDatetime (datetime_utcnow default_environ
                          + 7 * 86400 * 1000000)) ]
            "optica-secret-key-2026" "HS256")
  /\ (exists r e,
        result (login default_environ
                  (mkLoginRequest "admin@oticavision.com.br" "123456"))
               (reachable
                  (disk_after (criar_banco_basico default_environ)
                     (reachable empty_store)))
        = Return r
        /\ empresas (disk_after (criar_banco_basico default_environ)
                       (reachable empty_store)) = Some [e]
        /\ e_nome e = "Ótica Vision"
        /\ getitem (jwt.claims (token r)) "funcao" = Some (VStr "admin")
        /\ getitem (jwt.claims (token r)) "empresa_id"
           = Some (VInt (e_id e))).
Proof.
  assert (L : result (login default_environ
                        (mkLoginRequest "admin@oticavision.com.br" "123456"))
                     (reachable (seeded_store "2026-11-04 12:00:00"))
              = Return (login_payload default_environ
                  ( mkUsuario 1 1 "Administrador" "admin@oticavision.com.br"
                      (hashlib.sha256_hexdigest "123456") (Some "admin")
                      (Some 1) (Some "2026-11-04 12:00:00"),
                    mkEmpresa 1 "Ótica Vision" (Some "12.345.678/0001-90")
                      (Some "contato@oticavision.com.br")
                      (Some "(11) 98765-4321") (Some 1)
                      (Some "2026-11-04 12:00:00") )))
    by (vm_compute; reflexivity).
  split.
  - exact (proj1 login_token_claims _ _ _ _ L).
  - exact (proj2 login_token_claims default_environ default_environ eq_refl).
Defined.

(** C4, as stated, fails: a successful login needs a secret that PyJWT
    takes as an HMAC key.  With a secret in which it finds an SSH public
    key, [jwt.encode] raises [InvalidKeyError], and the seeded
    administrator's login on the store bootstrapped from the empty file is
    answered with the internal error. *)
Lemma login_refused_key_internal_error :
  let env :=
    mkEnviron "ssh-rsa AAAAB3NzaC1yc2EAAAADAQABAAABAQ optica"
      (Some "The specified key is an asymmetric key or x509 certificate and should not be used as an HMAC secret.")
      "production" 1793779200000000 "2026-11-04T09:00:00.000000"
      "2026-11-04 12:00:00" in
  let s := disk_after (criar_banco_basico env) (reachable empty_store) in
  result (login env (mkLoginRequest "admin@oticavision.com.br" "123456"))
         (reachable s)
  = Raise (HTTPException 500 "Erro no login: The specified key is an asymmetric key or x509 certificate and should not be used as an HMAC secret.").
Proof. vm_compute. reflexivity. Qed.

(** C5.  Whenever [login] succeeds, what it returns is the token signed
    for the matched user, together with the summary of that user (id,
    name, email, role) and the summary of the company that owns it (id,
    name, tax registration), and nothing else. *)
Theorem login_payload_shape (env : environ) (request : LoginRequest)
    (w : world) (r : LoginResponse) :
  result (login env request) w = Return r ->
  exists us es u e,
    usuarios (store_seen env w) = Some us
    /\ empresas (store_seen env w) = Some es
    /\ active_login us es request u e
    /\ r = mkLoginResponse
             (jwt.signed
                [ ("user_id", VInt (u_id u));
                  ("empresa_id", VInt (u_empresa_id u));
                  ("email", VStr (u_email u));
                  ("funcao",
                   match u_funcao u with Some f => VStr f | None => VNone end);
                  ("exp",
                   VDatetime (datetime_utcnow env + 7 * 86400 * 1000000)) ]
                (SECRET_KEY env) "HS256")
             [ ("id", VInt (u_id u));
               ("nome", VStr (u_nome u));
               ("email", VStr (u_email u));
               ("funcao",
                match u_funcao u with Some f => VStr f | None => VNone end) ]
             [ ("id", VInt (e_id e));
               ("nome", VStr (e_nome e));
               ("cnpj",
                match e_cnpj e with Some c => VStr c | None => VNone end) ].
Proof.
  intro H.
  destruct (login_return env request w r H) as (us & es & u & e & U & E & A & ->).
  exists us, es, u, e. split; [exact U|]. split; [exact E|].
  split; [exact A|].
  destruct A as (_ & _ & A & _). rewrite <- A. reflexivity.
Qed.

(** C5 for the seeded administrator. *)
Lemma login_payload_shape_witness :
  exists us es u e,
    usuarios (store_seen default_environ
                (reachable (seeded_store "2026-11-04 12:00:00"))) = Some us
    /\ empresas (store_seen default_environ
                   (reachable (seeded_store "2026-11-04 12:00:00"))) = Some es
    /\ active_login us es
         (mkLoginRequest "admin@oticavision.com.br" "123456") u e
    /\ login_payload default_environ
         ( mkUsuario 1 1 "Administrador" "admin@oticavision.com.br"
             (hashlib.sha256_hexdigest "123456") (Some "admin")
             (Some 1) (Some "2026-11-04 12:00:00"),
           mkEmpresa 1 "Ótica Vision" (Some "12.345.678/0001-90")
             (Some "contato@oticavision.com.br")
             (Some "(11) 98765-4321") (Some 1)
             (Some "2026-11-04 12:00:00") )
       = mkLoginResponse
           (jwt.signed
              [ ("user_id", VInt (u_id u));
                ("empresa_id", VInt (u_empresa_id u));
                ("email", VStr (u_email u));
                ("funcao",
                 match u_funcao u with Some f => VStr f | None => VNone end);
                ("exp",
                 VDatetime (datetime_utcnow default_environ
                            + 7 * 86400 * 1000000)) ]
              "optica-secret-key-2026" "HS256")
           [ ("id", VInt (u_id u));
             ("nome", VStr (u_nome u));
             ("email", VStr (u_email u));
             ("funcao",
              match u_funcao u with Some f => VStr f | None => VNone end) ]
           [ ("id", VInt (e_id e));
             ("nome", VStr (e_nome e));
             ("cnpj",
              match e_cnpj e with Some c => VStr c | None => VNone end) ].
Proof.
  assert (L : result (login default_environ
                        (mkLoginRequest "admin@oticavision.com.br" "123456"))
                     (reachable (seeded_store "2026-11-04 12:00:00"))
              = Return (login_payload default_environ
                  ( mkUsuario 1 1 "Administrador" "admin@oticavision.com.br"
             (hashlib.sha256_hexdigest "123456") (Some "admin")
             (Some 1) (Some "2026-11-04 12:00:00"),
                    mkEmpresa 1 "Ótica Vision" (Some "12.345.678/0001-90")
             (Some "contato@oticavision.com.br")
             (Some "(11) 98765-4321") (Some 1)
             (Some "2026-11-04 12:00:00") )))
    by (vm_compute; reflexivity).
  exact (login_payload_shape _ _ _ _ L).
Defined.

(** *** [status]: C7, C8 and C9 *)

Lemma status_try_run (env : environ) (w : world) :
  result (status_try env) w =
  match get_db env w with
  | (Return _, _) =>
      match empresas (store_seen env w), usuarios (store_seen env w) with
      | Some _, Some _ => Return (status_answer env (store_seen env w))
      | None, _ => Raise (OperationalError "no such table: empresas")
      | Some _, None => Raise (OperationalError "no such table: usuarios")
      end
  | (Raise e, _) => Raise e
  end.
Proof.
  unfold result, status_try. unfold bind at 1.
  destruct (get_db_outcome env w) as [(w' & f' & G & Hw')|(e & w' & G)]; rewrite G;
    [|reflexivity].
  rewrite Hw'. unfold status_answer.
  destruct (store_seen env w) as [es us sq ot]. simpl.
  destruct es as [es|], us as [us|]; reflexivity.
Qed.

Lemma status_run (env : environ) (w : world) :
  result (status env) w =
  Return (match get_db env w with
          | (Return _, _) => status_answer env (store_seen env w)
          | (Raise e, _) => status_except env e
          end).
Proof.
  pose proof (status_try_run env w) as T. revert T.
  unfold result, status, try_except.
  destruct (status_try env w) as [[d|e] w1]; simpl;
    destruct (get_db env w) as [[[]|e0] w0]; unfold status_answer;
    destruct (empresas (store_seen env w)), (usuarios (store_seen env w));
    intro T; inversion T; reflexivity.
Qed.

Lemma status_reachable (env : environ) (s : store) :
  result (status env) (reachable s) = Return (status_answer env s).
Proof. rewrite status_run. reflexivity. Qed.

Lemma is_one_match (o : option Z) :
  is_one o = match o with Some 1 => true | _ => false end.
Proof. destruct o as [[|[p|p|]|p]|]; reflexivity. Qed.

Lemma count_tables_both (es : list empresas_row) (us : list usuarios_row)
    (sq : option (list (string * Z))) (ot : list string) :
  count_tables (mkStore (Some es) (Some us) sq ot)
  = 2 + match sq with Some _ => 1 | None => 0 end
    + Z.of_nat (List.length ot).
Proof. unfold count_tables. simpl. destruct sq; reflexivity. Qed.

Lemma status_answer_ok (env : environ) (es : list empresas_row)
    (us : list usuarios_row) (sq : option (list (string * Z)))
    (ot : list string) :
  status_answer env (mkStore (Some es) (Some us) sq ot)
  = [ ("status", VStr "ok");
      ("database", VBool true);
      ("ambiente", VStr (ENVIRONMENT env));
      ("tabelas",
       VInt (2 + match sq with Some _ => 1 | None => 0 end
             + Z.of_nat (List.length ot)));
      ("empresas_ativas",
       VInt (Z.of_nat (List.length
         (filter (fun e => match e_ativo e with Some 1 => true | _ => false end)
                 es))));
      ("usuarios_ativos",
       VInt (Z.of_nat (List.length
         (filter (fun u => match u_ativo u with Some 1 => true | _ => false end)
                 us))));
      ("timestamp", VStr (datetime_now_isoformat env)) ].
Proof.
  unfold status_answer. cbn [empresas usuarios].
  rewrite count_tables_both.
  rewrite (filter_ext (fun e => is_one (e_ativo e))
             (fun e => match e_ativo e with Some 1 => true | _ => false end))
    by (intro; apply is_one_match).
  rewrite (filter_ext (fun u => is_one (u_ativo u))
             (fun u => match u_ativo u with Some 1 => true | _ => false end))
    by (intro; apply is_one_match).
  reflexivity.
Qed.

(** C7.  Whenever [status] answers "ok", both tables exist in the store it
    read, the company count is the number of company rows with
    [ativo = 1], the user count the number of user rows with [ativo = 1],
    and the table count the number of tables of the file: the two tables
    of the program, [sqlite_sequence] when it exists, and any other table.
    It does answer "ok", with these numbers, on every store that can be
    opened and holds the two tables; the table count reads no row, so it
    is the same whatever rows the two tables hold. *)
Theorem status_counts :
  (forall env w d,
     result (status env) w = Return d ->
     getitem d "status" = Some (VStr "ok") ->
     exists es us,
       empresas (store_seen env w) = Some es
       /\ usuarios (store_seen env w) = Some us
       /\ getitem d "empresas_ativas" =
          Some (VInt (Z.of_nat (List.length
            (filter (fun e =>
                       match e_ativo e with Some 1 => true | _ => false end)
                    es))))
       /\ getitem d "usuarios_ativos" =
          Some (VInt (Z.of_nat (List.length
            (filter (fun u =>
                       match u_ativo u with Some 1 => true | _ => false end)
                    us))))
       /\ getitem d "tabelas" =
          Some (VInt (2 + match sqlite_sequence (store_seen env w) with
                          | Some _ => 1
                          | None => 0
                          end
                      + Z.of_nat (List.length
                                    (other_tables (store_seen env w))))))
  /\ (forall env es us sq ot,
        result (status env) (reachable (mkStore (Some es) (Some us) sq ot)) =
        Return
          [ ("status", VStr "ok");
            ("database", VBool true);
            ("ambiente", VStr (ENVIRONMENT env));
            ("tabelas",
             VInt (2 + match sq with Some _ => 1 | None => 0 end
                   + Z.of_nat (List.length ot)));
            ("empresas_ativas",
             VInt (Z.of_nat (List.length
               (filter (fun e =>
                          match e_ativo e with Some 1 => true | _ => false end)
                       es))));
            ("usuarios_ativos",
             VInt (Z.of_nat (List.length
               (filter (fun u =>
                          match u_ativo u with Some 1 => true | _ => false end)
                       us))));
            ("timestamp", VStr (datetime_now_isoformat env)) ]).
Proof.
  split.
  - intros env w d. rewrite status_run. intros [= <-].
    destruct (get_db env w) as [[[]|e0] w0]; [|discriminate].
    destruct (store_seen env w) as [[es|] [us|] sq ot]; try discriminate.
    intros _. rewrite status_answer_ok. exists es, us.
    split; [reflexivity|]. split; [reflexivity|].
    split; [reflexivity|]. split; reflexivity.
  - intros env es us sq ot. rewrite status_reachable, status_answer_ok.
    reflexivity.
Qed.

(** C7 on a store with two companies and two users, one of each not
    active, and the three tables the bootstrapper leaves: the counts are
    1, 1 and 3. *)
Lemma status_counts_witness :
  let s := mkStore
             (Some [mkEmpresa 1 "A" None None None (Some 1) None;
                    mkEmpresa 2 "B" None None None (Some 0) None])
             (Some [mkUsuario 1 1 "U" "u@a" "h" None (Some 1) None;
                    mkUsuario 2 1 "V" "v@a" "h" None None None])
             (Some [("empresas", 2); ("usuarios", 2)]) [] in
  (exists es us,
     empresas (store_seen default_environ (reachable s)) = Some es
     /\ usuarios (store_seen default_environ (reachable s)) = Some us
     /\ getitem (status_answer default_environ s) "empresas_ativas" =
        Some (VInt (Z.of_nat (List.length
          (filter (fun e =>
                     match e_ativo e with Some 1 => true | _ => false end)
                  es))))
     /\ getitem (status_answer default_environ s) "usuarios_ativos" =
        Some (VInt (Z.of_nat (List.length
          (filter (fun u =>
                     match u_ativo u with Some 1 => true | _ => false end)
                  us))))
     /\ getitem (status_answer default_environ s) "tabelas" =
        Some (VInt (2 + match sqlite_sequence
                                (store_seen default_environ (reachable s)) with
                        | Some _ => 1
                        | None => 0
                        end
                    + Z.of_nat (List.length
                        (other_tables
                           (store_seen default_environ (reachable s)))))))
  /\ result (status default_environ) (reachable s)
     = Return [ ("status", VStr "ok");
                ("database", VBool true);
                ("ambiente", VStr "production");
                ("tabelas", VInt 3);
                ("empresas_ativas", VInt 1);
                ("usuarios_ativos", VInt 1);
                ("timestamp", VStr "2026-11-04T09:00:00.000000") ].
Proof.
  intro s. split.
  - exact (proj1 status_counts default_environ (reachable s)
             (status_answer default_environ s) eq_refl eq_refl).
  - exact (proj2 status_counts default_environ _ _ _ _).
Defined.

(** C8.  [status] never raises: whatever the world, it returns a payload;
    and whenever its [try] block fails with an exception [e] - the file
    cannot be opened, a table is missing - the payload has the status
    "error", [database] false and the text of [e]. *)
Theorem status_never_raises (env : environ) (w : world) :
  exists d,
    result (status env) w = Return d
    /\ (forall e, result (status_try env) w = Raise e ->
          d = [ ("status", VStr "error");
                ("database", VBool false);
                ("erro", VStr (str e));
                ("timestamp", VStr (datetime_now_isoformat env)) ])
    /\ (forall e w', get_db env w = (Raise e, w') ->
          result (status_try env) w = Raise e)
    /\ (forall w', get_db env w = (Return tt, w') ->
          empresas (disk w') = None \/ usuarios (disk w') = None ->
          exists table,
            result (status_try env) w
            = Raise (OperationalError ("no such table: " ++ table)%string)).
Proof.
  unfold result at 1. unfold status, try_except.
  destruct (status_try env w) as [[d|e] w1] eqn:T.
  - exists d. split; [reflexivity|]. split; [|split].
    + unfold result. rewrite T. discriminate.
    + intros e w' G. rewrite status_try_run, G. reflexivity.
    + intros w' G H. rewrite status_try_run, G.
      unfold store_seen. rewrite G. simpl snd.
      destruct (empresas (disk w')); [|now exists "empresas"].
      destruct (usuarios (disk w')); [|now exists "usuarios"].
      destruct H; discriminate.
  - exists (status_except env e). split; [reflexivity|]. split; [|split].
    + unfold result. rewrite T. now intros e' [= <-].
    + intros e' w' G. rewrite status_try_run, G. reflexivity.
    + intros w' G H. rewrite status_try_run, G.
      unfold store_seen. rewrite G. simpl snd.
      destruct (empresas (disk w')); [|now exists "empresas"].
      destruct (usuarios (disk w')); [|now exists "usuarios"].
      destruct H; discriminate.
Qed.

(** A file that cannot be opened: both attempts of [get_db] fail, and
    [status] reports the second failure. *)
Lemma status_unreachable (env : environ) (s : store) (t : option store)
    (m1 m2 : string) (rest : list (option string)) :
  result (status env) (mkWorld s t (Some m1 :: Some m2 :: rest))
  = Return [ ("status", VStr "error");
             ("database", VBool false);
             ("erro", VStr m2);
             ("timestamp", VStr (datetime_now_isoformat env)) ].
Proof. reflexivity. Qed.

(** Start-up does not bootstrap a file that can be opened: on the empty
    file [get_db] returns at once and no table is created. *)
Lemma startup_event_fresh_store (env : environ) :
  startup_event env (reachable empty_store)
  = (Return tt, reachable empty_store).
Proof. reflexivity. Qed.

(** C9, at the fresh file.  On the empty file, before any bootstrap,
    [status] does not return the success payload the claim describes:
    [get_db] opens the file and creates no table, the count of active
    companies fails on the missing [empresas] table, and [status] returns
    the error payload. *)
Theorem status_fresh_store (env : environ) :
  get_db env (reachable empty_store) = (Return tt, reachable empty_store)
  /\ empresas empty_store = None
  /\ usuarios empty_store = None
  /\ result (status env) (reachable empty_store)
     = Return [ ("status", VStr "error");
                ("database", VBool false);
                ("erro", VStr "no such table: empresas");
                ("timestamp", VStr (datetime_now_isoformat env)) ].
Proof. repeat split. Qed.

(** So the payload of C9 is not what [status] returns there. *)
Lemma status_fresh_store_not_ok :
  ~ exists d,
      result (status default_environ) (reachable empty_store) = Return d
      /\ getitem d "status" = Some (VStr "ok")
      /\ getitem d "tabelas" = Some (VInt 2)
      /\ getitem d "empresas_ativas" = Some (VInt 0)
      /\ getitem d "usuarios_ativos" = Some (VInt 0).
Proof.
  intros (d & H & S & _). vm_compute in H. injection H as <-.
  vm_compute in S. discriminate.
Qed.

(** *** ORDER BY *)

Section OrderBy.

Context {A : Type} (key : A -> string).

Lemma insert_by_perm (x : A) (l : list A) :
  Permutation (insert_by key x l) (x :: l).
Proof.
  induction l as [|y l IH]; simpl.
  - apply Permutation_refl.
  - destruct (String.leb (key x) (key y)).
    + apply Permutation_refl.
    + eapply perm_trans; [apply perm_skip, IH|apply perm_swap].
Qed.

Lemma order_by_perm (l : list A) : Permutation (order_by key l) l.
Proof.
  induction l as [|x l IH]; simpl.
  - apply perm_nil.
  - eapply perm_trans; [apply insert_by_perm|now apply perm_skip].
Qed.

Lemma insert_by_hd (x y : A) (l : list A) :
  ascending key y x -> HdRel (ascending key) y l ->
  HdRel (ascending key) y (insert_by key x l).
Proof.
  intros Hyx H. destruct l as [|z l]; simpl.
  - now constructor.
  - destruct (String.leb (key x) (key z)); constructor.
    + assumption.
    + now inversion H.
Qed.

Lemma insert_by_sorted (x : A) (l : list A) :
  Sorted (ascending key) l -> Sorted (ascending key) (insert_by key x l).
Proof.
  induction 1 as [|y l Hs IH Hd]; simpl.
  - repeat constructor.
  - destruct (String.leb (key x) (key y)) eqn:L.
    + constructor; [now constructor|now constructor].
    + constructor; [assumption|].
      apply insert_by_hd; [|assumption].
      unfold ascending.
      destruct (String.leb_total (key x) (key y)) as [H|H]; congruence.
Qed.

Lemma order_by_sorted (l : list A) : Sorted (ascending key) (order_by key l).
Proof.
  induction l as [|x l IH]; simpl.
  - constructor.
  - now apply insert_by_sorted.
Qed.

Lemma order_by_length (l : list A) :
  List.length (order_by key l) = List.length l.
Proof. apply Permutation_length, order_by_perm. Qed.

End OrderBy.

(** *** The listings: C6 *)

Lemma listar_usuarios_run (env : environ) (w : world) :
  result (listar_usuarios env) w =
  match get_db env w with
  | (Return _, _) =>
      match usuarios (store_seen env w), empresas (store_seen env w) with
      | Some us, Some es =>
          Return (VDict
            [ ("total", VInt (Z.of_nat (List.length (usuarios_listados us es))));
              ("usuarios",
               VList (map VDict (map usuarios_row_dict (usuarios_listados us es)))) ])
      | None, _ => Raise (HTTPException 500 "no such table: usuarios")
      | Some _, None => Raise (HTTPException 500 "no such table: empresas")
      end
  | (Raise e, _) => Raise (HTTPException 500 (str e))
  end.
Proof.
  unfold result, listar_usuarios, try_except. unfold bind at 1.
  destruct (get_db_outcome env w) as [(w' & f' & G & Hw')|(e & w' & G)]; rewrite G;
    [|reflexivity].
  rewrite Hw'.
  unfold bind, select_usuarios, sqlite3.select, view. simpl tx. cbv iota.
  simpl disk.
  destruct (usuarios (store_seen env w)) as [us|] eqn:U;
    [destruct (empresas (store_seen env w)) as [es|] eqn:E|].
  - simpl. rewrite length_map. reflexivity.
  - unfold missing_join_table. rewrite U. reflexivity.
  - unfold missing_join_table. rewrite U. reflexivity.
Qed.

Lemma listar_empresas_run (env : environ) (w : world) :
  result (listar_empresas env) w =
  match get_db env w with
  | (Return _, _) =>
      match empresas (store_seen env w) with
      | Some es =>
          Return (VDict
            [ ("total", VInt (Z.of_nat (List.length (order_by e_nome es))));
              ("empresas",
               VList (map VDict (map empresas_row_dict (order_by e_nome es)))) ])
      | None => Raise (HTTPException 500 "no such table: empresas")
      end
  | (Raise e, _) => Raise (HTTPException 500 (str e))
  end.
Proof.
  unfold result, listar_empresas, try_except. unfold bind at 1.
  destruct (get_db_outcome env w) as [(w' & f' & G & Hw')|(e & w' & G)]; rewrite G;
    [|reflexivity].
  rewrite Hw'.
  unfold bind, select_empresas, sqlite3.select, view. simpl tx. cbv iota.
  simpl disk.
  destruct (empresas (store_seen env w)) as [es|] eqn:E.
  - simpl. rewrite length_map. reflexivity.
  - reflexivity.
Qed.

Lemma filter_none (x : Z) (es : list empresas_row) :
  ~ In x (map e_id es) -> filter (fun e => x =? e_id e) es = [].
Proof.
  induction es as [|a es IH]; simpl; [reflexivity|].
  intro H. destruct (x =? e_id a) eqn:Q.
  - apply Z.eqb_eq in Q. exfalso. apply H. now left.
  - apply IH. intro. apply H. now right.
Qed.

(** A primary key finds exactly one row. *)
Lemma filter_unique (x : Z) (es : list empresas_row) :
  NoDup (map e_id es) -> In x (map e_id es) ->
  exists e, filter (fun e => x =? e_id e) es = [e].
Proof.
  induction es as [|a es IH]; simpl; [tauto|].
  intros N H. inversion N as [|? ? Ha N']. subst.
  destruct (x =? e_id a) eqn:Q.
  - apply Z.eqb_eq in Q. subst x. exists a.
    now rewrite filter_none.
  - destruct H as [H|H]; [apply Z.eqb_neq in Q; congruence|].
    now apply IH.
Qed.

(** With the foreign key honoured, the join keeps every user row, once. *)
Lemma join_keeps_all (us : list usuarios_row) (es : list empresas_row) :
  NoDup (map e_id es) ->
  (forall u, In u us -> In (u_empresa_id u) (map e_id es)) ->
  map fst (usuarios_join_empresas us es) = us.
Proof.
  intros N. unfold usuarios_join_empresas.
  induction us as [|u us IH]; simpl; intro F; [reflexivity|].
  rewrite map_app, IH by (intros; apply F; now right).
  unfold join_empresas.
  destruct (filter_unique (u_empresa_id u) es N (F u (or_introl eq_refl)))
    as (e & ->).
  reflexivity.
Qed.

(** What the join lists is what the tables hold, matched on the key. *)
Lemma in_usuarios_listados (us : list usuarios_row) (es : list empresas_row)
    (u : usuarios_row) (e : empresas_row) :
  In (u, e) (usuarios_listados us es) <->
  In u us /\ In e es /\ u_empresa_id u = e_id e.
Proof.
  rewrite <- in_join. unfold usuarios_listados. split; intro H.
  - eapply Permutation_in; [apply order_by_perm|exact H].
  - eapply Permutation_in; [apply Permutation_sym, order_by_perm|exact H].
Qed.


(** The program makes such a row itself: the administrator that the
    bootstrapper seeds in a file whose company identifiers were used
    before is listed by no call of [listar_usuarios]. *)
Lemma listar_usuarios_drops_seeded_admin :
  let s1 := disk_after (criar_banco_basico default_environ)
                       (reachable emptied_store) in
  (exists u, usuarios s1 = Some [u] /\ u_nome u = "Administrador")
  /\ result (listar_usuarios default_environ) (reachable s1)
     = Return (VDict [ ("total", VInt 0); ("usuarios", VList []) ]).
Proof.
  split.
  - eexists. vm_compute. split; reflexivity.
  - vm_compute. reflexivity.
Qed.

(** *** [senha_hash] does not flow into the listing: C10 *)

Lemma sim_store_refl (s : store) : sim_store s s.
Proof. repeat split. Qed.

Lemma sim_view (w1 w2 : world) :
  sim_world w1 w2 -> sim_store (view w1) (view w2).
Proof.
  intros (D & T & _). unfold view.
  destruct (tx w1), (tx w2); simpl in T; tauto.
Qed.

Lemma respects_ret {A} (a : A) : respects (ret a).
Proof. intros w1 w2 H. split; [reflexivity|exact H]. Qed.

Lemma respects_raise {A} (e : exn) : respects (@raise A e).
Proof. intros w1 w2 H. split; [reflexivity|exact H]. Qed.

Lemma respects_bind {A B} (m : M A) (f : A -> M B) :
  respects m -> (forall a, respects (f a)) -> respects (bind m f).
Proof.
  intros Hm Hf w1 w2 H. unfold bind.
  destruct (Hm w1 w2 H) as [R W].
  destruct (m w1) as [[a1|e1] w1'], (m w2) as [[a2|e2] w2'];
    simpl in R, W; try discriminate.
  - injection R as <-. now apply Hf.
  - injection R as <-. split; [reflexivity|exact W].
Qed.

Lemma respects_try_except {A} (m : M A) (h : exn -> M A) :
  respects m -> (forall e, respects (h e)) -> respects (try_except m h).
Proof.
  intros Hm Hh w1 w2 H. unfold try_except.
  destruct (Hm w1 w2 H) as [R W].
  destruct (m w1) as [[a1|e1] w1'], (m w2) as [[a2|e2] w2'];
    simpl in R, W; try discriminate.
  - split; [exact R|exact W].
  - injection R as <-. now apply Hh.
Qed.

Lemma respects_connect : respects sqlite3.connect.
Proof.
  intros w1 w2 (D & T & F). unfold sqlite3.connect. rewrite <- F.
  destruct (faults w1) as [|[m|] f]; sim_split.
Qed.

Lemma respects_commit : respects sqlite3.commit.
Proof.
  intros w1 w2 H. pose proof (sim_view w1 w2 H) as V.
  destruct H as (D & T & F). unfold sqlite3.commit. sim_split.
Qed.

Lemma respects_close : respects sqlite3.close.
Proof.
  intros w1 w2 (D & T & F). unfold sqlite3.close. sim_split.
Qed.

Lemma respects_select {A} (q : store -> outcome A) :
  (forall s1 s2, sim_store s1 s2 -> q s1 = q s2) ->
  respects (sqlite3.select q).
Proof.
  intros Hq w1 w2 H. unfold sqlite3.select. simpl.
  split; [apply Hq, sim_view, H|exact H].
Qed.

Lemma respects_ddl (f : store -> store) :
  (forall s1 s2, sim_store s1 s2 -> sim_store (f s1) (f s2)) ->
  respects (sqlite3.ddl f).
Proof.
  intros Hf w1 w2 (D & T & F). unfold sqlite3.ddl.
  destruct (tx w1) as [a|], (tx w2) as [b|]; simpl in T; try contradiction;
    sim_split; now apply Hf.
Qed.

Lemma respects_dml (f : store -> outcome store) :
  (forall s1 s2, sim_store s1 s2 -> sim_outcome (f s1) (f s2)) ->
  respects (sqlite3.dml f).
Proof.
  intros Hf w1 w2 H. pose proof (sim_view w1 w2 H) as V.
  pose proof (Hf _ _ V) as O. destruct H as (D & T & F).
  unfold sqlite3.dml.
  destruct (f (view w1)) as [a|e1], (f (view w2)) as [b|e2];
    simpl in O; try contradiction; sim_split.
  now subst.
Qed.

Lemma sim_usuarios (s1 s2 : store) :
  sim_store s1 s2 ->
  match usuarios s1, usuarios s2 with
  | Some us1, Some us2 => map erase_hash us1 = map erase_hash us2
  | None, None => True
  | _, _ => False
  end.
Proof.
  intros (_ & U & _).
  destruct (usuarios s1), (usuarios s2); simpl in U;
    try discriminate; [now injection U|exact I].
Qed.

Lemma erased_ids (us : list usuarios_row) :
  map u_id (map erase_hash us) = map u_id us.
Proof. rewrite map_map. reflexivity. Qed.

Lemma erased_emails (em : string) (us : list usuarios_row) :
  existsb (fun u => String.eqb (u_email u) em) (map erase_hash us)
  = existsb (fun u => String.eqb (u_email u) em) us.
Proof. induction us as [|u us IH]; simpl; [|rewrite IH]; reflexivity. Qed.

Lemma respects_create_table_empresas : respects create_table_empresas.
Proof.
  apply respects_ddl. intros s1 s2 H.
  pose proof H as (E & U & Q & O).
  rewrite <- E. destruct (empresas s1) eqn:E1; [exact H|].
  unfold sqlite3.ensure_sequence. rewrite <- Q.
  split; [reflexivity|]. split; [exact U|]. split; [reflexivity|exact O].
Qed.

Lemma respects_create_table_usuarios : respects create_table_usuarios.
Proof.
  apply respects_ddl. intros s1 s2 H.
  pose proof (sim_usuarios s1 s2 H) as S.
  pose proof H as (E & U & Q & O).
  destruct (usuarios s1) eqn:U1, (usuarios s2) eqn:U2; try contradiction;
    [exact H|].
  unfold sqlite3.ensure_sequence. rewrite <- Q.
  split; [exact E|]. split; [reflexivity|]. split; [reflexivity|exact O].
Qed.

Lemma respects_select_count_empresas : respects select_count_empresas.
Proof.
  apply respects_select. intros s1 s2 (E & _). now rewrite E.
Qed.

Lemma next_rowid_sim (name : string) (ids : list Z) (s1 s2 : store) :
  sim_store s1 s2 ->
  sqlite3.next_rowid name ids s1 = sqlite3.next_rowid name ids s2.
Proof.
  intros (_ & _ & Q & _). unfold sqlite3.next_rowid, sqlite3.seq_of.
  now rewrite Q.
Qed.

Lemma respects_insert_empresa (ts a b c d : string) :
  respects (insert_empresa ts a b c d).
Proof.
  apply respects_dml. intros s1 s2 H. cbv beta.
  pose proof H as (E & U & Q & O). rewrite <- E.
  destruct (empresas s1) as [es|]; [|reflexivity].
  rewrite (next_rowid_sim _ _ s1 s2 H).
  destruct (sqlite3.next_rowid _ _ s2); [|reflexivity].
  unfold sqlite3.bump_sequence. rewrite <- Q.
  split; [reflexivity|]. split; [exact U|]. split; [reflexivity|exact O].
Qed.

Lemma respects_insert_usuario (ts : string) (i : Z) (a b c d : string) :
  respects (insert_usuario ts i a b c d).
Proof.
  apply respects_dml. intros s1 s2 H. cbv beta.
  pose proof (sim_usuarios s1 s2 H) as S.
  pose proof (next_rowid_sim "usuarios") as N.
  pose proof H as (E & U & Q & O).
  destruct (usuarios s1) as [us1|] eqn:U1, (usuarios s2) as [us2|] eqn:U2;
    try contradiction; [|reflexivity].
  rewrite <- (erased_ids us1), <- (erased_ids us2), S.
  rewrite (N _ s1 s2 H).
  destruct (sqlite3.next_rowid _ _ s2); [|reflexivity].
  rewrite <- (erased_emails b us1), <- (erased_emails b us2), S.
  destruct (existsb _ _); [reflexivity|].
  unfold sqlite3.bump_sequence. rewrite <- Q.
  split; [exact E|]. split; [|split; [reflexivity|exact O]].
  simpl. rewrite !map_app, S. reflexivity.
Qed.

Lemma respects_criar_banco_basico (env : environ) :
  respects (criar_banco_basico env).
Proof.
  unfold criar_banco_basico.
  repeat first
    [ apply respects_bind; [|intro]
    | apply respects_connect
    | apply respects_create_table_empresas
    | apply respects_create_table_usuarios
    | apply respects_commit
    | apply respects_close
    | apply respects_select_count_empresas
    | apply respects_insert_empresa
    | apply respects_insert_usuario
    | apply respects_ret
    | match goal with |- respects (if ?c then _ else _) => destruct c end ].
Qed.

Lemma respects_get_db (env : environ) : respects (get_db env).
Proof.
  unfold get_db. apply respects_try_except; [apply respects_connect|].
  intro e. apply respects_bind; [apply respects_criar_banco_basico|].
  intro. apply respects_connect.
Qed.

(** The join and the sort read [empresa_id] and [nome] only. *)
Lemma join_erased (es : list empresas_row) (us : list usuarios_row) :
  usuarios_join_empresas (map erase_hash us) es
  = map erase_joined (usuarios_join_empresas us es).
Proof.
  unfold usuarios_join_empresas.
  induction us as [|u us IH]; simpl; [reflexivity|].
  rewrite IH, map_app. f_equal.
  unfold join_empresas. rewrite map_map. reflexivity.
Qed.

Lemma insert_by_map {A} (key : A -> string) (f : A -> A) (x : A) (l : list A) :
  (forall a, key (f a) = key a) ->
  insert_by key (f x) (map f l) = map f (insert_by key x l).
Proof.
  intro K. induction l as [|y l IH]; simpl; [reflexivity|].
  rewrite !K. destruct (String.leb (key x) (key y)); simpl;
    [reflexivity|now rewrite IH].
Qed.

Lemma order_by_map {A} (key : A -> string) (f : A -> A) (l : list A) :
  (forall a, key (f a) = key a) ->
  order_by key (map f l) = map f (order_by key l).
Proof.
  intro K. induction l as [|x l IH]; simpl; [reflexivity|].
  rewrite IH. now apply insert_by_map.
Qed.

Lemma listados_erased (us : list usuarios_row) (es : list empresas_row) :
  map usuarios_row_dict (usuarios_listados (map erase_hash us) es)
  = map usuarios_row_dict (usuarios_listados us es).
Proof.
  unfold usuarios_listados. rewrite join_erased.
  rewrite (order_by_map _ erase_joined) by reflexivity.
  rewrite map_map. apply map_ext. intros [u e]. reflexivity.
Qed.

Lemma respects_select_usuarios : respects select_usuarios.
Proof.
  apply respects_select. intros s1 s2 H.
  pose proof (sim_usuarios s1 s2 H) as S.
  destruct H as (E & U & Q & O). unfold missing_join_table.
  rewrite <- E.
  destruct (usuarios s1) as [us1|], (usuarios s2) as [us2|];
    try contradiction; [|reflexivity].
  destruct (empresas s1) as [es|]; [|reflexivity].
  now rewrite <- (listados_erased us1), <- (listados_erased us2), S.
Qed.

Lemma respects_listar_usuarios (env : environ) :
  respects (listar_usuarios env).
Proof.
  unfold listar_usuarios.
  apply respects_try_except; [|intro; apply respects_raise].
  repeat first
    [ apply respects_bind; [|intro]
    | apply respects_get_db
    | apply respects_select_usuarios
    | apply respects_close
    | apply respects_ret ].
Qed.

Lemma sim_tx_refl (t : option store) : sim_tx t t.
Proof. destruct t; simpl; [apply sim_store_refl|exact I]. Qed.

Lemma usuarios_row_dict_keys (ue : usuarios_row * empresas_row) :
  keys (usuarios_row_dict ue)
  = ["id"; "nome"; "email"; "funcao"; "ativo"; "empresa_nome"]
  /\ has_key (usuarios_row_dict ue) "senha_hash" = false.
Proof. destruct ue. split; reflexivity. Qed.

(** C10.  What [listar_usuarios] returns holds, for each user, the six
    fields id, nome, email, funcao, ativo and empresa_nome, and no
    [senha_hash]; and its outcome, a listing or an error, is the same on
    two worlds that differ in the [senha_hash] of one user only. *)
Theorem listar_usuarios_hides_senha_hash :
  (forall env w v,
     result (listar_usuarios env) w = Return v ->
     exists ds,
       v = VDict [ ("total", VInt (Z.of_nat (List.length ds)));
                   ("usuarios", VList (map VDict ds)) ]
       /\ Forall (fun d =>
            keys d = ["id"; "nome"; "email"; "funcao"; "ativo"; "empresa_nome"]
            /\ has_key d "senha_hash" = false) ds)
  /\ (forall env s t f before u after h,
        usuarios s = Some (before ++ u :: after) ->
        result (listar_usuarios env)
          (mkWorld
             (mkStore (empresas s)
                      (Some (before ++ set_senha_hash h u :: after))
                      (sqlite_sequence s) (other_tables s))
             t f)
        = result (listar_usuarios env) (mkWorld s t f)).
Proof.
  split.
  - intros env w v. rewrite listar_usuarios_run.
    destruct (get_db env w) as [[[]|e0] w0]; [|discriminate].
    destruct (usuarios (store_seen env w)) as [us|]; [|discriminate].
    destruct (empresas (store_seen env w)) as [es|]; [|discriminate].
    intros [= <-]. exists (map usuarios_row_dict (usuarios_listados us es)).
    split.
    + now rewrite length_map.
    + apply Forall_forall. intros d Hd. apply in_map_iff in Hd.
      destruct Hd as (ue & <- & _). apply usuarios_row_dict_keys.
  - intros env s t f before u after h U.
    apply (respects_listar_usuarios env).
    split; [|split; [apply sim_tx_refl|reflexivity]].
    simpl. split; [reflexivity|]. split; [|split; reflexivity].
    simpl. rewrite U. simpl. rewrite !map_app. reflexivity.
Qed.

(** The seeded store, and the same store after the administrator's digest
    was replaced. *)
Lemma listar_usuarios_hides_senha_hash_witness :
  result (listar_usuarios default_environ)
    (reachable
       (mkStore (empresas (seeded_store "2026-11-04 12:00:00"))
          (Some ([] ++
             [set_senha_hash (hashlib.sha256_hexdigest "outra senha")
                (mkUsuario 1 1 "Administrador" "admin@oticavision.com.br"
                   (hashlib.sha256_hexdigest "123456") (Some "admin")
                   (Some 1) (Some "2026-11-04 12:00:00"))]))
          (sqlite_sequence (seeded_store "2026-11-04 12:00:00"))
          (other_tables (seeded_store "2026-11-04 12:00:00"))))
  = result (listar_usuarios default_environ)
      (reachable (seeded_store "2026-11-04 12:00:00")).
Proof.
  exact (proj2 listar_usuarios_hides_senha_hash default_environ
           (seeded_store "2026-11-04 12:00:00") None [] [] _ []
           (hashlib.sha256_hexdigest "outra senha") eq_refl).
Defined.

(* ================================================================== *)
(** ** Further properties of the program *)
(* ================================================================== *)

(** *** The bootstrapper in closed form *)

Lemma geb_minus_one (m : Z) :
  (m + 1 - 1 >=? sqlite3.MAX_ROWID) = (m >=? sqlite3.MAX_ROWID).
Proof. now replace (m + 1 - 1) with m by lia. Qed.

Lemma criar_banco_basico_run (env : environ) (s : store) :
  result (criar_banco_basico env) (reachable s)
  = fst (bootstrap (CURRENT_TIMESTAMP env) s)
  /\ disk_after (criar_banco_basico env) (reachable s)
     = snd (bootstrap (CURRENT_TIMESTAMP env) s).
Proof.
  unfold result, disk_after, bootstrap, seed_empresa_id, seed_usuario_id,
    seed_usuario, seed_empresa, admin_email, full, unique_failed, created.
  rewrite !geb_minus_one.
  unfold criar_banco_basico.
  generalize (hashlib.sha256_hexdigest "123456"). intro h.
  destruct s as [[[|e es]|] [us|] [sq|] ot];
    unfold bind, insert_empresa, insert_usuario, sqlite3.dml, view,
      sqlite3.next_rowid, sqlite3.seq_of, sqlite3.bump_sequence,
      sqlite3.max_rowid;
    cbn -[Z.max Z.geb Z.add sqlite3.MAX_ROWID] in *;
    rewrite ?assoc_set_other by discriminate;
    try (split; reflexivity).
  all: repeat match goal with
       | |- context [if ?c then _ else _] =>
           destruct c eqn:?;
           cbn -[Z.max Z.geb Z.add sqlite3.MAX_ROWID] in *;
           rewrite ?assoc_set_other by discriminate
       end; try (split; reflexivity).
Qed.

(** The bootstrapper connects once: what the later connections will meet
    it neither reads nor changes. *)
Lemma criar_banco_basico_frame (env : environ) (s : store)
    (t : option store) (f : list (option string)) :
  let r := criar_banco_basico env (reachable s) in
  criar_banco_basico env (mkWorld s t (None :: f))
  = (fst r, mkWorld (disk (snd r)) (tx (snd r)) f)
  /\ criar_banco_basico env (mkWorld s t [])
     = (fst r, mkWorld (disk (snd r)) (tx (snd r)) []).
Proof.
  unfold criar_banco_basico.
  generalize (hashlib.sha256_hexdigest "123456"). intro h.
  destruct s as [[[|e es]|] [us|] [sq|] ot];
    unfold bind, insert_empresa, insert_usuario, sqlite3.dml, view,
      sqlite3.next_rowid, sqlite3.seq_of, sqlite3.bump_sequence,
      sqlite3.max_rowid;
    cbn -[Z.max Z.geb Z.add sqlite3.MAX_ROWID] in *;
    rewrite ?assoc_set_other by discriminate;
    try (split; reflexivity).
  all: repeat match goal with
       | |- context [if ?c then _ else _] =>
           destruct c eqn:?;
           cbn -[Z.max Z.geb Z.add sqlite3.MAX_ROWID] in *;
           rewrite ?assoc_set_other by discriminate
       end; try (split; reflexivity).
Qed.

Lemma criar_banco_basico_world (env : environ) (w : world) :
  criar_banco_basico env w
  = match first_fault w with
    | None =>
        let r := criar_banco_basico env (reachable (disk w)) in
        (fst r, mkWorld (disk (snd r)) (tx (snd r)) (tl (faults w)))
    | Some msg =>
        (Raise (OperationalError msg),
         mkWorld (disk w) (tx w) (tl (faults w)))
    end.
Proof.
  destruct w as [s t f]. unfold first_fault. simpl faults. simpl disk.
  destruct f as [|[m|] f].
  - apply (criar_banco_basico_frame env s t []).
  - reflexivity.
  - apply (criar_banco_basico_frame env s t f).
Qed.

Lemma criar_banco_basico_any (env : environ) (w : world) :
  result (criar_banco_basico env) w
  = match first_fault w with
    | None => fst (bootstrap (CURRENT_TIMESTAMP env) (disk w))
    | Some msg => Raise (OperationalError msg)
    end
  /\ disk_after (criar_banco_basico env) w
     = match first_fault w with
       | None => snd (bootstrap (CURRENT_TIMESTAMP env) (disk w))
       | Some _ => disk w
       end.
Proof.
  unfold result, disk_after. rewrite criar_banco_basico_world.
  destruct (first_fault w); [split; reflexivity|].
  apply criar_banco_basico_run.
Qed.

Lemma seq_of_created (name : string) (s : store) :
  sqlite3.seq_of name (created s) = sqlite3.seq_of name s.
Proof.
  destruct s as [[es|] [us|] [sq|] ot]; reflexivity.
Qed.

Lemma created_idem (s : store) : created (created s) = created s.
Proof. reflexivity. Qed.

Lemma seed_ids_created (s : store) :
  seed_empresa_id (created s) = seed_empresa_id s
  /\ seed_usuario_id (created s) = seed_usuario_id s.
Proof.
  unfold seed_empresa_id, seed_usuario_id.
  rewrite !seq_of_created. split; reflexivity.
Qed.

(** A second run of the closed form repeats the outcome of the first and
    leaves its store. *)
Lemma bootstrap_twice (ts1 ts2 : string) (s : store) :
  bootstrap ts2 (snd (bootstrap ts1 s)) = bootstrap ts1 s.
Proof.
  unfold bootstrap at 2 3.
  destruct (rows (empresas s)) as [|e es] eqn:R.
  - destruct (seed_empresa_id s - 1 >=? sqlite3.MAX_ROWID) eqn:G1;
      [|destruct (seed_usuario_id s - 1 >=? sqlite3.MAX_ROWID) eqn:G2;
        [|destruct (existsb _ (rows (usuarios s))) eqn:X]];
      simpl snd.
    1-3: unfold bootstrap;
         destruct (seed_ids_created s) as [-> ->];
         change (rows (empresas (created s))) with (rows (empresas s));
         change (rows (usuarios (created s))) with (rows (usuarios s));
         rewrite R, G1, ?G2, ?X; reflexivity.
    reflexivity.
  - simpl snd. unfold bootstrap.
    change (rows (empresas (created s))) with (rows (empresas s)).
    rewrite R. reflexivity.
Qed.

(** *** The bootstrapper: what it keeps *)

(** X1.  Whatever the store, the bootstrapper repeats itself: run again
    on the file it left, by a new connection, it has the same outcome -
    it returns again, or fails again with the same error - and leaves the
    file as it found it. *)
Theorem criar_banco_basico_idempotent (env1 env2 : environ) (s : store) :
  let s1 := disk_after (criar_banco_basico env1) (reachable s) in
  result (criar_banco_basico env2) (reachable s1)
  = result (criar_banco_basico env1) (reachable s)
  /\ disk_after (criar_banco_basico env2) (reachable s1) = s1.
Proof.
  intro s1. subst s1.
  destruct (criar_banco_basico_run env1 s) as [R1 D1].
  rewrite D1, R1.
  destruct (criar_banco_basico_run env2
              (snd (bootstrap (CURRENT_TIMESTAMP env1) s))) as [R2 D2].
  rewrite R2, D2, bootstrap_twice. split; reflexivity.
Qed.

Lemma le_max_rowid (x : Z) (ids : list Z) :
  In x ids -> x <= sqlite3.max_rowid ids.
Proof.
  unfold sqlite3.max_rowid.
  induction ids as [|y ids IH]; simpl; [tauto|].
  intros [->|H]; [lia|]. specialize (IH H). lia.
Qed.

Lemma NoDup_snoc {A} (l : list A) (x : A) :
  NoDup l -> ~ In x l -> NoDup (l ++ [x]).
Proof.
  induction l as [|y l IH]; simpl; intros N H.
  - constructor; [tauto|constructor].
  - inversion N as [|? ? Hy N']. subst. constructor.
    + rewrite in_app_iff. simpl. intros [Hin|[->|[]]]; tauto.
    + apply IH; tauto.
Qed.

Lemma email_absent (em : string) (us : list usuarios_row) :
  existsb (fun u => String.eqb (u_email u) em) us = false ->
  ~ In em (map u_email us).
Proof.
  induction us as [|u us IH]; simpl; [tauto|].
  intro H. apply orb_false_iff in H. destruct H as [H1 H2].
  apply String.eqb_neq in H1. intros [E|E]; [congruence|now apply IH].
Qed.

Lemma bootstrap_keeps_keys (ts : string) (s : store) :
  keys_unique s -> keys_unique (snd (bootstrap ts s)).
Proof.
  intros (Ke & Ki & Km). unfold bootstrap.
  destruct (rows (empresas s)) as [|e es] eqn:R;
    [|repeat split; simpl; congruence].
  destruct (seed_empresa_id s - 1 >=? sqlite3.MAX_ROWID);
    [repeat split; simpl; congruence|].
  destruct (seed_usuario_id s - 1 >=? sqlite3.MAX_ROWID);
    [repeat split; simpl; congruence|].
  destruct (existsb _ (rows (usuarios s))) eqn:X;
    [repeat split; simpl; congruence|].
  split; [|split]; simpl.
  - repeat constructor. simpl. tauto.
  - rewrite map_app. apply NoDup_snoc; [exact Ki|].
    simpl. unfold seed_usuario_id. intro H. apply le_max_rowid in H. lia.
  - rewrite map_app. apply NoDup_snoc; [exact Km|].
    now apply email_absent.
Qed.

(** X2.  The bootstrapper keeps the keys of the schema: if company
    identifiers, user identifiers and user emails are each without
    repetition in the file, they still are in the file it leaves, whether
    it returns or raises. *)
Theorem criar_banco_basico_keeps_keys (env : environ) (w : world) :
  keys_unique (disk w) ->
  keys_unique (disk_after (criar_banco_basico env) w).
Proof.
  intro K. destruct (criar_banco_basico_any env w) as [_ ->].
  destruct (first_fault w); [exact K|].
  now apply bootstrap_keeps_keys.
Qed.

(** The file left by deleting every company and keeping two users. *)
Lemma criar_banco_basico_keeps_keys_witness :
  keys_unique
    (disk_after (criar_banco_basico default_environ)
       (reachable
          (mkStore (Some [])
             (Some [mkUsuario 1 1 "Ana" "ana@a" "h1" None (Some 1) None;
                    mkUsuario 2 1 "Rui" "rui@a" "h2" None (Some 0) None])
             (Some [("empresas", 1); ("usuarios", 2)]) []))).
Proof.
  apply criar_banco_basico_keeps_keys.
  split; [|split]; simpl; repeat constructor; simpl;
    intuition discriminate.
Defined.

(** X3.  The seed is all or nothing, and nothing else is touched.  The
    bootstrapper never changes or removes a row and never changes the
    other tables; either it leaves the rows of both tables as they were,
    or - only when there was no company row, and only when it returns - it
    has added exactly one company row and exactly one user row.  When it
    raises, no row was added. *)
Theorem criar_banco_basico_all_or_nothing (env : environ) (w : world) :
  let s := disk w in
  let s' := disk_after (criar_banco_basico env) w in
  other_tables s' = other_tables s
  /\ ((rows (empresas s') = rows (empresas s)
       /\ rows (usuarios s') = rows (usuarios s))
      \/ (rows (empresas s) = []
          /\ result (criar_banco_basico env) w = Return tt
          /\ exists i j,
               rows (empresas s')
               = [seed_empresa (CURRENT_TIMESTAMP env) i]
               /\ rows (usuarios s')
                  = rows (usuarios s)
                    ++ [seed_usuario (CURRENT_TIMESTAMP env) j]))
  /\ (forall e, result (criar_banco_basico env) w = Raise e ->
        rows (empresas s') = rows (empresas s)
        /\ rows (usuarios s') = rows (usuarios s)).
Proof.
  intros s s'. subst s s'.
  destruct (criar_banco_basico_any env w) as [-> ->].
  destruct (first_fault w) as [m|]; [now repeat split; auto|].
  unfold bootstrap.
  destruct (rows (empresas (disk w))) as [|e es] eqn:R;
    [|simpl; rewrite R; repeat split; auto].
  destruct (seed_empresa_id (disk w) - 1 >=? sqlite3.MAX_ROWID);
    [simpl; rewrite R; repeat split; auto|].
  destruct (seed_usuario_id (disk w) - 1 >=? sqlite3.MAX_ROWID);
    [simpl; rewrite R; repeat split; auto|].
  destruct (existsb _ (rows (usuarios (disk w))));
    [simpl; rewrite R; repeat split; auto|].
  simpl. split; [reflexivity|]. split; [|discriminate].
  right. split; [reflexivity|]. split; [reflexivity|]. eauto.
Qed.

(** *** [get_db] and start-up *)

Lemma criar_banco_basico_return_world (env : environ) (s : store) :
  fst (criar_banco_basico env (reachable s)) = Return tt ->
  snd (criar_banco_basico env (reachable s))
  = reachable (disk (snd (criar_banco_basico env (reachable s)))).
Proof.
  unfold criar_banco_basico.
  generalize (hashlib.sha256_hexdigest "123456"). intro h.
  destruct s as [[[|e es]|] [us|] [sq|] ot];
    unfold bind, insert_empresa, insert_usuario, sqlite3.dml, view,
      sqlite3.next_rowid, sqlite3.seq_of, sqlite3.bump_sequence,
      sqlite3.max_rowid;
    cbn -[Z.max Z.geb Z.add sqlite3.MAX_ROWID] in *;
    rewrite ?assoc_set_other by discriminate;
    try reflexivity.
  all: repeat match goal with
       | |- context [if ?c then _ else _] =>
           destruct c eqn:?;
           cbn -[Z.max Z.geb Z.add sqlite3.MAX_ROWID] in *;
           rewrite ?assoc_set_other by discriminate
       end; try reflexivity; try discriminate.
Qed.

Lemma bootstrap_return_ready (ts : string) (s : store) :
  fst (bootstrap ts s) = Return tt -> schema_ready (snd (bootstrap ts s)).
Proof.
  unfold bootstrap.
  destruct (rows (empresas s)) as [|e es] eqn:R.
  - destruct (_ >=? _); [discriminate|].
    destruct (_ >=? _); [discriminate|].
    destruct (existsb _ _); [discriminate|].
    intros _. do 3 eexists. split; reflexivity.
  - intros _. exists e, es, (rows (usuarios s)). simpl. rewrite R.
    split; reflexivity.
Qed.

Lemma bootstrap_raise_rows (ts : string) (s : store) (e : exn) :
  fst (bootstrap ts s) = Raise e ->
  rows (empresas (snd (bootstrap ts s))) = rows (empresas s)
  /\ rows (usuarios (snd (bootstrap ts s))) = rows (usuarios s).
Proof.
  unfold bootstrap.
  destruct (rows (empresas s)) as [|e0 es] eqn:R; [|discriminate].
  destruct (_ >=? _); [simpl; rewrite R; auto|].
  destruct (_ >=? _); [simpl; rewrite R; auto|].
  destruct (existsb _ _); [simpl; rewrite R; auto|discriminate].
Qed.

Lemma criar_banco_basico_raise (env : environ) (w w' : world) (e : exn) :
  criar_banco_basico env w = (Raise e, w') ->
  rows (empresas (disk w')) = rows (empresas (disk w))
  /\ rows (usuarios (disk w')) = rows (usuarios (disk w)).
Proof.
  intro H. destruct (criar_banco_basico_any env w) as [R D].
  unfold result, disk_after in R, D. rewrite H in R, D. simpl in R, D.
  rewrite D. destruct (first_fault w); [split; reflexivity|].
  now apply bootstrap_raise_rows with (e := e).
Qed.

(** When the bootstrapper returns, the file was opened, the connection is
    closed, and the file holds both tables and a company. *)
Lemma criar_banco_basico_return (env : environ) (w w' : world) :
  criar_banco_basico env w = (Return tt, w') ->
  first_fault w = None
  /\ w' = mkWorld (disk w') None (tl (faults w))
  /\ schema_ready (disk w').
Proof.
  rewrite criar_banco_basico_world.
  destruct (first_fault w) as [m|]; [discriminate|].
  intro H. split; [reflexivity|].
  pose proof (criar_banco_basico_return_world env (disk w)) as W.
  destruct (criar_banco_basico_run env (disk w)) as [R D].
  unfold result, disk_after in R, D.
  cbv zeta in H. injection H as Hf Hw. specialize (W Hf).
  assert (T : tx (snd (criar_banco_basico env (reachable (disk w)))) = None)
    by (rewrite W; reflexivity).
  rewrite T in Hw. subst w'. simpl. split; [reflexivity|].
  rewrite D. apply bootstrap_return_ready. now rewrite <- R.
Qed.

Lemma get_db_world (env : environ) (w : world) :
  get_db env w
  = match first_fault w with
    | None => (Return tt, mkWorld (disk w) None (tl (faults w)))
    | Some _ =>
        (criar_banco_basico env ;;; sqlite3.connect)
          (mkWorld (disk w) (tx w) (tl (faults w)))
    end.
Proof.
  unfold get_db, try_except, sqlite3.connect at 1, first_fault.
  destruct (faults w) as [|[m|] f]; reflexivity.
Qed.

Lemma get_db_return_cases (env : environ) (w w' : world) :
  get_db env w = (Return tt, w') ->
  (first_fault w = None /\ disk w' = disk w)
  \/ (first_fault w <> None /\ schema_ready (disk w')).
Proof.
  rewrite get_db_world.
  destruct (first_fault w) as [m|].
  - unfold bind.
    destruct (criar_banco_basico env _) as [[[]|e] w1] eqn:C; [|discriminate].
    apply criar_banco_basico_return in C. destruct C as (_ & _ & S).
    intro H. apply connect_return in H. destruct H as [D _].
    right. split; [discriminate|]. now rewrite D.
  - intros [= <-]. left. split; reflexivity.
Qed.

Lemma get_db_raise_cases (env : environ) (w w' : world) (e : exn) :
  get_db env w = (Raise e, w') ->
  first_fault w <> None
  /\ ((rows (empresas (disk w')) = rows (empresas (disk w))
       /\ rows (usuarios (disk w')) = rows (usuarios (disk w)))
      \/ schema_ready (disk w')).
Proof.
  rewrite get_db_world.
  destruct (first_fault w) as [m|]; [|discriminate].
  unfold bind. intro G. split; [discriminate|].
  destruct (criar_banco_basico env _) as [[[]|e1] w1] eqn:C.
  - right. apply criar_banco_basico_return in C. destruct C as (_ & _ & S).
    unfold sqlite3.connect in G.
    destruct (faults w1) as [|[m1|] f1]; try discriminate.
    injection G as _ <-. exact S.
  - left. injection G as _ <-.
    apply (criar_banco_basico_raise env _ _ _ C).
Qed.

(** X4.  [get_db] heals or fails.  If it returns, either the file was
    opened at the first attempt and is untouched, or the first attempt
    failed, the bootstrapper ran and returned, and the file now holds both
    tables and a company row.  If it raises, the first attempt had failed
    and the error is a [sqlite3] error; then either the bootstrapper
    failed and no row was added to the file, or the bootstrapper had
    returned and it was the connection after it that failed, on a file
    that holds both tables and a company row. *)
Theorem get_db_heals_or_fails (env : environ) (w : world) :
  (forall w',
     get_db env w = (Return tt, w') ->
     (first_fault w = None /\ disk w' = disk w)
     \/ (first_fault w <> None /\ schema_ready (disk w')))
  /\ (forall e w',
        get_db env w = (Raise e, w') ->
        first_fault w <> None
        /\ sqlite_error e = true
        /\ ((rows (empresas (disk w')) = rows (empresas (disk w))
             /\ rows (usuarios (disk w')) = rows (usuarios (disk w)))
            \/ schema_ready (disk w'))).
Proof.
  split.
  - intros w'. apply get_db_return_cases.
  - intros e w' G.
    pose proof (raises_sqlite_get_db env w e w' G) as SE.
    destruct (get_db_raise_cases env w w' e G) as [F R]. auto.
Qed.

(** One failed attempt on the empty file: [get_db] returns on a seeded
    file.  A failed attempt, and another after the bootstrapper: [get_db]
    raises on a seeded file. *)
Lemma get_db_heals_or_fails_witness :
  let w := mkWorld empty_store None [Some "unable to open database file"] in
  let v := mkWorld empty_store None [Some "locked"; None; Some "locked"] in
  ((first_fault w = None /\ disk (snd (get_db default_environ w)) = disk w)
   \/ (first_fault w <> None
       /\ schema_ready (disk (snd (get_db default_environ w)))))
  /\ (first_fault v <> None
      /\ sqlite_error (OperationalError "locked") = true
      /\ ((rows (empresas (disk (snd (get_db default_environ v))))
           = rows (empresas (disk v))
           /\ rows (usuarios (disk (snd (get_db default_environ v))))
              = rows (usuarios (disk v)))
          \/ schema_ready (disk (snd (get_db default_environ v))))).
Proof.
  intros w v.
  assert (G : get_db default_environ w
              = (Return tt, snd (get_db default_environ w)))
    by (vm_compute; reflexivity).
  assert (H : get_db default_environ v
              = (Raise (OperationalError "locked"),
                 snd (get_db default_environ v)))
    by (vm_compute; reflexivity).
  split.
  - exact (proj1 (get_db_heals_or_fails default_environ w) _ G).
  - exact (proj2 (get_db_heals_or_fails default_environ v) _ _ H).
Defined.

(** The connection after the bootstrapper can fail too: the seed is then
    in the file although [get_db] raises. *)
Lemma get_db_reconnect_fails :
  let w := mkWorld empty_store None [Some "locked"; None; Some "locked"] in
  result (get_db default_environ) w = Raise (OperationalError "locked")
  /\ schema_ready (disk_after (get_db default_environ) w).
Proof.
  split; [vm_compute; reflexivity|].
  exists (seed_empresa (CURRENT_TIMESTAMP default_environ) 1), [],
         [seed_usuario (CURRENT_TIMESTAMP default_environ) 1].
  split; vm_compute; reflexivity.
Qed.

(** X5.  If start-up returns, the file was opened at the first attempt and
    is untouched, or it now holds both tables and a company row. *)
Theorem startup_event_returns (env : environ) (w w' : world) :
  startup_event env w = (Return tt, w') ->
  (first_fault w = None /\ disk w' = disk w) \/ schema_ready (disk w').
Proof.
  unfold startup_event, try_except, bind.
  destruct (get_db env w) as [[[]|e] w1] eqn:G.
  - unfold sqlite3.close. intros [= <-]. simpl.
    destruct (get_db_return_cases env w w1 G) as [H|[_ H]]; auto.
  - intro C. right. now apply criar_banco_basico_return in C.
Qed.

(** Two failed attempts, then the bootstrapper of the handler opens the
    empty file and seeds it. *)
Lemma startup_event_returns_witness :
  let w := mkWorld empty_store None [Some "locked"; Some "locked"] in
  (first_fault w = None
   /\ disk (snd (startup_event default_environ w)) = disk w)
  \/ schema_ready (disk (snd (startup_event default_environ w))).
Proof.
  intro w.
  assert (G : startup_event default_environ w
              = (Return tt, snd (startup_event default_environ w)))
    by (vm_compute; reflexivity).
  exact (startup_event_returns default_environ w _ G).
Defined.

(** X6.  A new deployment does not work.  Start-up on the empty file
    creates no table, and after it every login request is answered with
    the internal error, both listings with the internal error, and
    [status] with its error payload. *)
Theorem fresh_deployment (env env' : environ) :
  let w := snd (startup_event env (reachable empty_store)) in
  disk w = empty_store
  /\ (forall request,
        result (login env' request) w
        = Raise (HTTPException 500 "Erro no login: no such table: usuarios"))
  /\ result (listar_usuarios env') w
     = Raise (HTTPException 500 "no such table: usuarios")
  /\ result (listar_empresas env') w
     = Raise (HTTPException 500 "no such table: empresas")
  /\ result (status env') w
     = Return (status_except env'
                 (OperationalError "no such table: empresas")).
Proof.
  intro w. subst w. rewrite startup_event_fresh_store. simpl snd.
  split; [reflexivity|]. split; [|repeat split].
  intro request. rewrite login_reachable. reflexivity.
Qed.

(** *** The endpoints do not write *)

Lemma read_only_ret {A} (a : A) : read_only (ret a).
Proof. intros w F. split; [reflexivity|exact F]. Qed.

Lemma read_only_raise {A} (e : exn) : read_only (@raise A e).
Proof. intros w F. split; [reflexivity|exact F]. Qed.

Lemma read_only_bind {A B} (m : M A) (f : A -> M B) :
  read_only m -> (forall a, read_only (f a)) -> read_only (bind m f).
Proof.
  intros Hm Hf w F. unfold bind.
  destruct (Hm w F) as [D F']. destruct (m w) as [[a|e] w1]; simpl in *.
  - destruct (Hf a w1 F') as [D2 F2]. split; [congruence|exact F2].
  - split; assumption.
Qed.

Lemma read_only_try_except {A} (m : M A) (h : exn -> M A) :
  read_only m -> (forall e, read_only (h e)) -> read_only (try_except m h).
Proof.
  intros Hm Hh w F. unfold try_except.
  destruct (Hm w F) as [D F']. destruct (m w) as [[a|e] w1]; simpl in *.
  - split; assumption.
  - destruct (Hh e w1 F') as [D2 F2]. split; [congruence|exact F2].
Qed.

Lemma read_only_select {A} (q : store -> outcome A) :
  read_only (sqlite3.select q).
Proof. intros w F. split; [reflexivity|exact F]. Qed.

Lemma read_only_close : read_only sqlite3.close.
Proof. intros w F. split; [reflexivity|exact F]. Qed.

Lemma read_only_subscript (d : dict) (k : string) : read_only (subscript d k).
Proof.
  unfold subscript. destruct (getitem d k);
    [apply read_only_ret|apply read_only_raise].
Qed.

Lemma read_only_get_db (env : environ) : read_only (get_db env).
Proof.
  intros w F. rewrite get_db_world. unfold first_fault. rewrite F.
  split; reflexivity.
Qed.

Lemma read_only_status (env : environ) : read_only (status env).
Proof.
  unfold status, status_try, select_count_tables,
    select_count_empresas_ativas, select_count_usuarios_ativos.
  repeat first
    [ apply read_only_get_db
    | apply read_only_try_except; [|intro]
    | apply read_only_bind; [|intro]
    | apply read_only_select
    | apply read_only_close
    | apply read_only_ret ].
Qed.

Lemma read_only_login (env : environ) (request : LoginRequest) :
  read_only (login env request).
Proof.
  unfold login, login_try, select_login.
  apply read_only_try_except;
    [|intro e; destruct (is_HTTPException e); apply read_only_raise].
  apply read_only_bind; [apply read_only_get_db|intros _].
  apply read_only_bind; [apply read_only_select|intro rs].
  destruct (fetchone rs); [|apply read_only_raise].
  repeat first
    [ apply read_only_bind; [|intro]
    | apply read_only_subscript
    | apply read_only_close
    | apply read_only_ret ].
Qed.

Lemma read_only_listar_usuarios (env : environ) :
  read_only (listar_usuarios env).
Proof.
  unfold listar_usuarios, select_usuarios.
  repeat first
    [ apply read_only_get_db
    | apply read_only_try_except; [|intro]
    | apply read_only_bind; [|intro]
    | apply read_only_select
    | apply read_only_close
    | apply read_only_raise
    | apply read_only_ret ].
Qed.

Lemma read_only_listar_empresas (env : environ) :
  read_only (listar_empresas env).
Proof.
  unfold listar_empresas, select_empresas.
  repeat first
    [ apply read_only_get_db
    | apply read_only_try_except; [|intro]
    | apply read_only_bind; [|intro]
    | apply read_only_select
    | apply read_only_close
    | apply read_only_raise
    | apply read_only_ret ].
Qed.

(** X7.  On a file that can be opened no endpoint writes: after [status],
    [login], [listar_usuarios] or [listar_empresas], whatever they answer,
    the file is what it was. *)
Theorem endpoints_read_only (env : environ) (w : world) :
  faults w = [] ->
  disk_after (status env) w = disk w
  /\ (forall request, disk_after (login env request) w = disk w)
  /\ disk_after (listar_usuarios env) w = disk w
  /\ disk_after (listar_empresas env) w = disk w.
Proof.
  intro F. unfold disk_after. repeat split.
  - apply (read_only_status env w F).
  - intro request. apply (read_only_login env request w F).
  - apply (read_only_listar_usuarios env w F).
  - apply (read_only_listar_empresas env w F).
Qed.

Lemma endpoints_read_only_witness :
  let w := reachable (seeded_store "2026-11-04 12:00:00") in
  disk_after (status default_environ) w = disk w
  /\ (forall request, disk_after (login default_environ request) w = disk w)
  /\ disk_after (listar_usuarios default_environ) w = disk w
  /\ disk_after (listar_empresas default_environ) w = disk w.
Proof.
  intro w. exact (endpoints_read_only default_environ w eq_refl).
Defined.

(** *** What the endpoints raise *)

(** X8.  [login] raises nothing but the two HTTP errors: the 401 of
    invalid credentials, only when the file was opened and both tables
    exist, or a 500 whose detail starts with "Erro no login: ".  No
    [sqlite3] error and no [KeyError] leaves it. *)
Theorem login_raises_http_only (env : environ) (request : LoginRequest)
    (w : world) (e : exn) :
  result (login env request) w = Raise e ->
  (e = HTTPException 401 "Credenciais inválidas"
   /\ (exists w', get_db env w = (Return tt, w'))
   /\ empresas (store_seen env w) <> None
   /\ usuarios (store_seen env w) <> None)
  \/ (exists msg, e = HTTPException 500 ("Erro no login: " ++ msg)%string).
Proof.
  rewrite login_run.
  destruct (get_db env w) as [[[]|e0] w'] eqn:G.
  - unfold login_answer.
    destruct (usuarios (store_seen env w)) as [us|];
      [destruct (empresas (store_seen env w)) as [es|]|].
    + destruct (filter _ _).
      * intros [= <-]. left. split; [reflexivity|].
        split; [now exists w'|]. split; discriminate.
      * destruct (jwt_key_error env) as [m|]; [|discriminate].
        intros [= <-]. right. now exists m.
    + intros [= <-]. right. now exists "no such table: empresas".
    + intros [= <-]. right. now exists "no such table: usuarios".
  - intros [= <-]. right. now exists (str e0).
Qed.

Lemma login_raises_http_only_witness :
  (HTTPException 500 "Erro no login: no such table: usuarios"
   = HTTPException 401 "Credenciais inválidas"
   /\ (exists w', get_db default_environ (reachable empty_store)
                  = (Return tt, w'))
   /\ empresas (store_seen default_environ (reachable empty_store)) <> None
   /\ usuarios (store_seen default_environ (reachable empty_store)) <> None)
  \/ (exists msg,
        HTTPException 500 "Erro no login: no such table: usuarios"
        = HTTPException 500 ("Erro no login: " ++ msg)%string).
Proof.
  exact (login_raises_http_only default_environ
           (mkLoginRequest "a@b.c" "x") (reachable empty_store) _ eq_refl).
Defined.

(** X9.  The two listings raise nothing but HTTP 500, and its detail is
    the text of the [sqlite3] error: that of the failed connection, or
    the name of the missing table. *)
Theorem listings_raise_500_only (env : environ) (w : world) (e : exn) :
  result (listar_usuarios env) w = Raise e
  \/ result (listar_empresas env) w = Raise e ->
  exists msg,
    e = HTTPException 500 msg
    /\ ((exists e0 w', get_db env w = (Raise e0, w') /\ msg = str e0)
        \/ (exists table, msg = ("no such table: " ++ table)%string)).
Proof.
  intros [H|H]; revert H.
  - rewrite listar_usuarios_run.
    destruct (get_db env w) as [[[]|e0] w'] eqn:G.
    + destruct (usuarios (store_seen env w)) as [us|];
        [destruct (empresas (store_seen env w)) as [es|]|];
        [discriminate| |]; intros [= <-]; eexists; (split; [reflexivity|]);
        right; [now exists "empresas"|now exists "usuarios"].
    + intros [= <-]. eexists. split; [reflexivity|]. left. eauto.
  - rewrite listar_empresas_run.
    destruct (get_db env w) as [[[]|e0] w'] eqn:G.
    + destruct (empresas (store_seen env w)) as [es|]; [discriminate|].
      intros [= <-]. eexists. split; [reflexivity|].
      right. now exists "empresas".
    + intros [= <-]. eexists. split; [reflexivity|]. left. eauto.
Qed.

Lemma listings_raise_500_only_witness :
  exists msg,
    HTTPException 500 "no such table: usuarios" = HTTPException 500 msg
    /\ ((exists e0 w',
           get_db default_environ (reachable empty_store) = (Raise e0, w')
           /\ msg = str e0)
        \/ (exists table, msg = ("no such table: " ++ table)%string)).
Proof.
  exact (listings_raise_500_only default_environ (reachable empty_store) _
           (or_introl eq_refl)).
Defined.

(** *** [login] and the rest of the program *)

(** X10.  The token and the summaries agree: in every successful login
    the claims user_id, empresa_id, email and funcao of the token are the
    id, email and funcao of the user summary and the id of the company
    summary, and the two identifiers are integers. *)
Theorem login_token_matches_summaries (env : environ)
    (request : LoginRequest) (w : world) (r : LoginResponse) :
  result (login env request) w = Return r ->
  (exists i, getitem (jwt.claims (token r)) "user_id" = Some (VInt i)
             /\ getitem (usuario r) "id" = Some (VInt i))
  /\ (exists c, getitem (jwt.claims (token r)) "empresa_id" = Some (VInt c)
                /\ getitem (empresa r) "id" = Some (VInt c))
  /\ getitem (jwt.claims (token r)) "email" = Some (VStr (email request))
  /\ getitem (usuario r) "email" = Some (VStr (email request))
  /\ getitem (jwt.claims (token r)) "funcao" = getitem (usuario r) "funcao".
Proof.
  intro H.
  destruct (login_return env request w r H)
    as (us & es & u & e & _ & _ & A & ->).
  destruct A as (_ & _ & _ & Em & _). simpl. rewrite Em.
  repeat split; eauto.
Qed.

Lemma login_token_matches_summaries_witness :
  getitem
    (jwt.claims
       (token (login_payload default_environ
                 (seed_usuario "2026-11-04 12:00:00" 1,
                  seed_empresa "2026-11-04 12:00:00" 1))))
    "funcao"
  = getitem
      (usuario (login_payload default_environ
                  (seed_usuario "2026-11-04 12:00:00" 1,
                   seed_empresa "2026-11-04 12:00:00" 1)))
      "funcao".
Proof.
  assert (L : result (login default_environ
                        (mkLoginRequest "admin@oticavision.com.br" "123456"))
                     (reachable (seeded_store "2026-11-04 12:00:00"))
              = Return (login_payload default_environ
                          (seed_usuario "2026-11-04 12:00:00" 1,
                           seed_empresa "2026-11-04 12:00:00" 1)))
    by (vm_compute; reflexivity).
  exact (proj2 (proj2 (proj2 (proj2
           (login_token_matches_summaries _ _ _ _ L))))).
Defined.

(** X11.  Who can log in is listed: on a store that can be opened, the
    user of a successful login appears in [listar_usuarios], with the same
    id, name, email and role, with [ativo] 1, and with the name of the
    company of the login response. *)
Theorem login_user_is_listed (env env' : environ) (request : LoginRequest)
    (s : store) (r : LoginResponse) :
  result (login env request) (reachable s) = Return r ->
  exists ds d,
    result (listar_usuarios env') (reachable s)
    = Return (VDict [ ("total", VInt (Z.of_nat (List.length ds)));
                      ("usuarios", VList (map VDict ds)) ])
    /\ In d ds
    /\ getitem d "id" = getitem (usuario r) "id"
    /\ getitem d "nome" = getitem (usuario r) "nome"
    /\ getitem d "email" = getitem (usuario r) "email"
    /\ getitem d "funcao" = getitem (usuario r) "funcao"
    /\ getitem d "ativo" = Some (VInt 1)
    /\ getitem d "empresa_nome" = getitem (empresa r) "nome".
Proof.
  intro H.
  destruct (login_return env request _ r H)
    as (us & es & u & e & U & E & A & ->).
  unfold store_seen in U, E. rewrite get_db_reachable in U, E.
  simpl in U, E.
  exists (map usuarios_row_dict (usuarios_listados us es)),
         (usuarios_row_dict (u, e)).
  split; [|split].
  - rewrite listar_usuarios_run, get_db_reachable.
    unfold store_seen. rewrite get_db_reachable. simpl snd. simpl disk.
    rewrite U, E, length_map. reflexivity.
  - apply in_map. unfold usuarios_listados.
    eapply Permutation_in; [apply Permutation_sym, order_by_perm|].
    apply in_join. destruct A as (Hu & He & Hid & _). auto.
  - destruct A as (_ & _ & _ & _ & _ & Ha). simpl. rewrite Ha.
    repeat split.
Qed.

Lemma login_user_is_listed_witness :
  exists ds d,
    result (listar_usuarios default_environ)
           (reachable (seeded_store "2026-11-04 12:00:00"))
    = Return (VDict [ ("total", VInt (Z.of_nat (List.length ds)));
                      ("usuarios", VList (map VDict ds)) ])
    /\ In d ds
    /\ getitem d "ativo" = Some (VInt 1).
Proof.
  assert (L : result (login default_environ
                        (mkLoginRequest "admin@oticavision.com.br" "123456"))
                     (reachable (seeded_store "2026-11-04 12:00:00"))
              = Return (login_payload default_environ
                          (seed_usuario "2026-11-04 12:00:00" 1,
                           seed_empresa "2026-11-04 12:00:00" 1)))
    by (vm_compute; reflexivity).
  destruct (login_user_is_listed default_environ default_environ _ _ _ L)
    as (ds & d & R & I & _ & _ & _ & _ & A & _).
  exists ds, d. auto.
Defined.

Lemma filter_map_comm {A B} (p : B -> bool) (f : A -> B) (l : list A) :
  filter p (map f l) = map f (filter (fun a => p (f a)) l).
Proof.
  induction l as [|a l IH]; simpl; [reflexivity|].
  destruct (p (f a)); simpl; now rewrite IH.
Qed.

Lemma join_reflagged (g : empresas_row -> option Z)
    (us : list usuarios_row) (es : list empresas_row) :
  usuarios_join_empresas us (map (fun e => set_e_ativo (g e) e) es)
  = map (fun ue => (fst ue, set_e_ativo (g (snd ue)) (snd ue)))
        (usuarios_join_empresas us es).
Proof.
  unfold usuarios_join_empresas.
  induction us as [|u us IH]; simpl; [reflexivity|].
  rewrite IH, map_app. f_equal.
  unfold join_empresas. rewrite filter_map_comm, !map_map. reflexivity.
Qed.

(** X12.  [login] does not look at the company's [ativo]: whatever the
    flags of the company rows are changed to, every login request has the
    same outcome, token and summaries included.  The users of a company
    that was deactivated still log in. *)
Theorem login_ignores_empresa_ativo (env : environ) (request : LoginRequest)
    (s : store) (es : list empresas_row) (g : empresas_row -> option Z) :
  empresas s = Some es ->
  result (login env request)
    (reachable (mkStore (Some (map (fun e => set_e_ativo (g e) e) es))
                        (usuarios s) (sqlite_sequence s) (other_tables s)))
  = result (login env request) (reachable s).
Proof.
  intro E. rewrite !login_reachable. unfold login_answer. simpl.
  rewrite E. destruct (usuarios s) as [us|]; [|reflexivity].
  rewrite join_reflagged, filter_map_comm.
  match goal with
  | |- context [filter ?p (usuarios_join_empresas us es)] =>
      replace (filter p (usuarios_join_empresas us es))
        with (filter (login_where (email request)
                        (hashlib.sha256_hexdigest (password request)))
                     (usuarios_join_empresas us es))
        by (apply filter_ext; intros [u e]; reflexivity)
  end.
  destruct (filter _ _) as [|[u e] rest]; reflexivity.
Qed.

(** The seeded company is deactivated; the administrator logs in as
    before. *)
Lemma login_ignores_empresa_ativo_witness :
  result (login default_environ
            (mkLoginRequest "admin@oticavision.com.br" "123456"))
    (reachable
       (mkStore
          (Some (map (fun e => set_e_ativo (Some 0) e)
                     [seed_empresa "2026-11-04 12:00:00" 1]))
          (usuarios (seeded_store "2026-11-04 12:00:00"))
          (sqlite_sequence (seeded_store "2026-11-04 12:00:00"))
          (other_tables (seeded_store "2026-11-04 12:00:00"))))
  = result (login default_environ
              (mkLoginRequest "admin@oticavision.com.br" "123456"))
      (reachable (seeded_store "2026-11-04 12:00:00")).
Proof.
  exact (login_ignores_empresa_ativo default_environ _
           (seeded_store "2026-11-04 12:00:00") _ (fun _ => Some 0) eq_refl).
Defined.

(** X13.  A user without its company cannot log in: on a store that can
    be opened and holds both tables, when no company row has the
    identifier that the users with the request's email reference, the
    answer is the 401 of invalid credentials, whatever the password. *)
Theorem login_orphan_rejected (env : environ) (request : LoginRequest)
    (s : store) (us : list usuarios_row) (es : list empresas_row) :
  usuarios s = Some us -> empresas s = Some es ->
  (forall u, In u us -> u_email u = email request ->
             ~ In (u_empresa_id u) (map e_id es)) ->
  result (login env request) (reachable s)
  = Raise (HTTPException 401 "Credenciais inválidas").
Proof.
  intros U E O. rewrite login_reachable.
  apply (login_answer_invalid env request s us es U E).
  intros (u & e & Hu & He & Hid & Hem & _).
  apply (O u Hu Hem). rewrite Hid. now apply in_map.
Qed.

Lemma login_orphan_rejected_witness :
  result (login default_environ
            (mkLoginRequest "admin@oticavision.com.br" "123456"))
         (reachable orphan_store)
  = Raise (HTTPException 401 "Credenciais inválidas").
Proof.
  apply (login_orphan_rejected default_environ _ orphan_store _ []
           eq_refl eq_refl).
  intros u _ _ [].
Defined.

(** *** The listing of users and the primary key *)

Lemma filter_at_most_one (x : Z) (es : list empresas_row) :
  NoDup (map e_id es) ->
  (List.length (filter (fun e => Z.eqb x (e_id e)) es) <= 1)%nat.
Proof.
  intro N. destruct (in_dec Z.eq_dec x (map e_id es)) as [I|I].
  - destruct (filter_unique x es N I) as (e & ->). simpl. lia.
  - rewrite (filter_none x es I). simpl. lia.
Qed.

Lemma join_length (us : list usuarios_row) (es : list empresas_row) :
  NoDup (map e_id es) ->
  (List.length (usuarios_join_empresas us es) <= List.length us)%nat.
Proof.
  intro N. unfold usuarios_join_empresas.
  induction us as [|u us IH]; simpl; [lia|].
  rewrite length_app. unfold join_empresas at 1. rewrite length_map.
  pose proof (filter_at_most_one (u_empresa_id u) es N). lia.
Qed.

(** X14.  With company identifiers unique, as the primary key makes
    them, [listar_usuarios] lists no user twice: its total is at most the
    number of user rows, and it is that number when every user references
    an existing company. *)
Theorem listar_usuarios_total (env : environ) (s : store)
    (us : list usuarios_row) (es : list empresas_row) :
  usuarios s = Some us -> empresas s = Some es ->
  NoDup (map e_id es) ->
  exists n ds,
    result (listar_usuarios env) (reachable s)
    = Return (VDict [ ("total", VInt (Z.of_nat n));
                      ("usuarios", VList ds) ])
    /\ List.length ds = n
    /\ (n <= List.length us)%nat
    /\ ((forall u, In u us -> In (u_empresa_id u) (map e_id es)) ->
        n = List.length us).
Proof.
  intros U E N.
  exists (List.length (usuarios_listados us es)),
         (map VDict (map usuarios_row_dict (usuarios_listados us es))).
  split; [|split; [|split]].
  - rewrite listar_usuarios_run, get_db_reachable.
    unfold store_seen. rewrite get_db_reachable. simpl snd. simpl disk.
    rewrite U, E. reflexivity.
  - now rewrite !length_map.
  - unfold usuarios_listados. rewrite order_by_length.
    now apply join_length.
  - intro F. unfold usuarios_listados. rewrite order_by_length.
    rewrite <- (join_keeps_all us es N F) at 2. now rewrite length_map.
Qed.

Lemma listar_usuarios_total_witness :
  exists n ds,
    result (listar_usuarios default_environ) (reachable orphan_store)
    = Return (VDict [ ("total", VInt (Z.of_nat n));
                      ("usuarios", VList ds) ])
    /\ List.length ds = n
    /\ (n <= 1)%nat.
Proof.
  destruct (listar_usuarios_total default_environ orphan_store _ []
              eq_refl eq_refl (NoDup_nil _))
    as (n & ds & R & L & B & _).
  exists n, ds. auto.
Defined.

(** *** Configuration: [DB_PATH] *)

Example replace_overlap : str.replace "aaa" "aa" "b" = "ba".
Proof. reflexivity. Qed.

Example replace_empty_old : str.replace "ab" EmptyString "-" = "-a-b-".
Proof. reflexivity. Qed.

Example DB_PATH_default : DB_PATH "sqlite:///./optica.db" = "./optica.db".
Proof. reflexivity. Qed.

Lemma startswith_app (a b s : string) :
  str.startswith s (a ++ b) = true -> str.startswith s a = true.
Proof.
  revert s. induction a as [|c a IH]; intros s; simpl; [reflexivity|].
  destruct s as [|d s]; [discriminate|].
  rewrite !andb_true_iff. intros [H1 H2]. split; [exact H1|now apply IH].
Qed.

Lemma contains_app (a b s : string) :
  str.contains s a = false -> str.contains s (a ++ b) = false.
Proof.
  induction s as [|c s IH]; simpl str.contains; intro H;
    apply orb_false_iff in H; destruct H as [H1 H2];
    apply orb_false_iff; split; auto.
  - destruct (str.startswith EmptyString (a ++ b)) eqn:S; [|reflexivity].
    apply startswith_app in S. congruence.
  - destruct (str.startswith (String c s) (a ++ b)) eqn:S; [|reflexivity].
    apply startswith_app in S. congruence.
Qed.

Lemma contains_step (c : ascii) (s old : string) :
  str.contains (String c s) old
  = str.startswith (String c s) old || str.contains s old.
Proof. reflexivity. Qed.

Lemma startswith_mismatch (a c : ascii) (s old : string) :
  Ascii.eqb a c = false ->
  str.startswith (String c s) (String a old) = false.
Proof. intro H. simpl. now rewrite H. Qed.

Lemma startswith_same (a s b : string) :
  str.startswith (a ++ s) (a ++ b) = str.startswith s b.
Proof.
  induction a as [|c a IH]; simpl; [reflexivity|].
  now rewrite Ascii.eqb_refl, IH.
Qed.

(** Without an occurrence there is nothing to replace. *)
Lemma replace_absent (s : string) (c : ascii) (old new : string) :
  str.contains s (String c old) = false ->
  str.replace s (String c old) new = s.
Proof.
  unfold str.replace.
  induction s as [|d s IH]; [reflexivity|].
  intro H. simpl str.contains in H. apply orb_false_iff in H.
  destruct H as [H1 H2].
  simpl str.replace_from. simpl in H1. rewrite H1.
  now rewrite IH.
Qed.

(** X15.  [DB_PATH] strips the scheme and nothing else.  For a path in
    which "sqlite://" does not occur, the URL made of "sqlite:///" and the
    path gives the path back (so four slashes give an absolute path); so
    does "sqlite://" followed by a path that does not start with a slash;
    and a bare path is left as it is. *)
Theorem DB_PATH_strips_scheme (path : string) :
  str.contains path "sqlite://" = false ->
  DB_PATH ("sqlite:///" ++ path) = path
  /\ (str.startswith path "/" = false ->
      DB_PATH ("sqlite://" ++ path) = path)
  /\ DB_PATH path = path.
Proof.
  intro H.
  assert (H3 : str.contains path "sqlite:///" = false)
    by (apply (contains_app "sqlite://" "/"); exact H).
  unfold DB_PATH. split; [|split].
  - change (str.replace ("sqlite:///" ++ path) "sqlite:///" EmptyString)
      with (str.replace path "sqlite:///" EmptyString).
    rewrite (replace_absent path _ _ _ H3).
    apply (replace_absent _ _ _ _ H).
  - intro S.
    assert (C : str.contains ("sqlite://" ++ path) "sqlite:///" = false).
    { assert (S0 : str.startswith ("sqlite://" ++ path) "sqlite:///" = false)
        by (change "sqlite:///" with ("sqlite://" ++ "/")%string;
            rewrite startswith_same; exact S).
      revert S0. cbn [String.append]. intro S0.
      rewrite contains_step, S0. cbn [orb].
      repeat (rewrite contains_step, startswith_mismatch by reflexivity;
              cbn [orb]).
      exact H3. }
    rewrite (replace_absent _ _ _ _ C).
    change (str.replace ("sqlite://" ++ path) "sqlite://" EmptyString)
      with (str.replace path "sqlite://" EmptyString).
    apply (replace_absent _ _ _ _ H).
  - rewrite (replace_absent path _ _ _ H3).
    apply (replace_absent _ _ _ _ H).
Qed.

Lemma DB_PATH_strips_scheme_witness :
  DB_PATH ("sqlite:///" ++ "./optica.db") = "./optica.db"
  /\ (str.startswith "./optica.db" "/" = false ->
      DB_PATH ("sqlite://" ++ "./optica.db") = "./optica.db")
  /\ DB_PATH "./optica.db" = "./optica.db".
Proof.
  exact (DB_PATH_strips_scheme "./optica.db" eq_refl).
Defined.

(** *** After the bootstrapper *)

(** X16.  Once the bootstrapper has returned, the program answers: on the
    file it left, once opened, [status] says "ok", both listings return,
    with at least one company, and [login] answers with a token, with the
    401 of invalid credentials or, when PyJWT refuses the secret, with the
    500 that carries its message; the database gives it no internal
    error. *)
Theorem after_criar_banco_basico (env env' : environ) (w w' : world) :
  criar_banco_basico env w = (Return tt, w') ->
  (exists d, result (status env') (reachable (disk w')) = Return d
             /\ getitem d "status" = Some (VStr "ok")
             /\ getitem d "database" = Some (VBool true))
  /\ (exists n ds, result (listar_usuarios env')
                          (reachable (disk w'))
                   = Return (VDict [ ("total", VInt n);
                                     ("usuarios", VList ds) ]))
  /\ (exists n ds, result (listar_empresas env')
                          (reachable (disk w'))
                   = Return (VDict [ ("total", VInt n);
                                     ("empresas", VList ds) ])
                   /\ 1 <= n)
  /\ (forall request,
        (exists r, result (login env' request) (reachable (disk w')) = Return r)
        \/ result (login env' request) (reachable (disk w'))
           = Raise (HTTPException 401 "Credenciais inválidas")
        \/ (exists msg,
              jwt_key_error env' = Some msg
              /\ result (login env' request) (reachable (disk w'))
                 = Raise (HTTPException 500 ("Erro no login: " ++ msg)))).
Proof.
  intro C. apply criar_banco_basico_return in C.
  destruct C as (_ & _ & (e & es & us & E & U)).
  remember (disk w') as s' eqn:Hs. clear Hs w'.
  split; [|split; [|split]].
  - rewrite status_reachable. unfold status_answer. rewrite E, U.
    eexists. split; [reflexivity|]. split; reflexivity.
  - rewrite listar_usuarios_run, get_db_reachable.
    unfold store_seen. rewrite get_db_reachable. simpl snd. simpl disk.
    rewrite E, U. eauto.
  - rewrite listar_empresas_run, get_db_reachable.
    unfold store_seen. rewrite get_db_reachable. simpl snd. simpl disk.
    rewrite E. eexists. eexists. split; [reflexivity|].
    rewrite order_by_length. simpl List.length. lia.
  - intro request. rewrite login_reachable.
    destruct (login_answer env' request s') as [r|e0] eqn:L; [eauto|].
    right.
    destruct (login_answer_raise env' request s' us (e :: es) e0 U E L)
      as [->|(msg & K & ->)]; [now left|right; eauto].
Qed.

Lemma after_criar_banco_basico_witness :
  let s' := disk (snd (criar_banco_basico default_environ
                         (reachable emptied_store))) in
  (exists d, result (status default_environ) (reachable s') = Return d
             /\ getitem d "status" = Some (VStr "ok")
             /\ getitem d "database" = Some (VBool true))
  /\ (exists n ds, result (listar_usuarios default_environ) (reachable s')
                   = Return (VDict [ ("total", VInt n);
                                     ("usuarios", VList ds) ]))
  /\ (exists n ds, result (listar_empresas default_environ) (reachable s')
                   = Return (VDict [ ("total", VInt n);
                                     ("empresas", VList ds) ])
                   /\ 1 <= n)
  /\ (forall request,
        (exists r, result (login default_environ request) (reachable s')
                   = Return r)
        \/ result (login default_environ request) (reachable s')
           = Raise (HTTPException 401 "Credenciais inválidas")
        \/ (exists msg,
              jwt_key_error default_environ = Some msg
              /\ result (login default_environ request) (reachable s')
                 = Raise (HTTPException 500 ("Erro no login: " ++ msg)))).
Proof.
  assert (C : criar_banco_basico default_environ (reachable emptied_store)
              = (Return tt,
                 snd (criar_banco_basico default_environ
                        (reachable emptied_store))))
    by (vm_compute; reflexivity).
  exact (after_criar_banco_basico default_environ default_environ _ _ C).
Defined.

Lemma no_login_rows (h : string) (us : list usuarios_row)
    (es : list empresas_row) :
  existsb (fun u => String.eqb (u_email u) admin_email) us = false ->
  filter (login_where admin_email h) (usuarios_join_empresas us es) = [].
Proof.
  unfold usuarios_join_empresas.
  induction us as [|u us IH]; simpl; [reflexivity|].
  intro H. apply orb_false_iff in H. destruct H as [H1 H2].
  rewrite filter_app, (IH H2), app_nil_r.
  unfold join_empresas.
  induction (filter (fun e => u_empresa_id u =? e_id e) es) as [|e l IHl];
    simpl; [reflexivity|].
  unfold login_where at 1. simpl. rewrite H1. simpl. exact IHl.
Qed.

Lemma seed_login_rows (ts ts' : string) (i j : Z) :
  filter (login_where admin_email (hashlib.sha256_hexdigest "123456"))
         (join_empresas [seed_empresa ts i] (seed_usuario ts' j))
  = if 1 =? i then [(seed_usuario ts' j, seed_empresa ts i)] else [].
Proof.
  unfold seed_usuario, seed_empresa, admin_email.
  generalize (hashlib.sha256_hexdigest "123456"). intro h.
  unfold join_empresas. cbn [filter u_empresa_id e_id].
  destruct (1 =? i); [|reflexivity].
  cbn [map filter]. unfold login_where.
  cbn [fst u_email u_senha_hash u_ativo].
  rewrite !String.eqb_refl. reflexivity.
Qed.

(** X17.  The seeded administrator and the history of the file.  When
    the bootstrapper seeds a store that had no company row, the
    administrator it creates logs in with "123456", under a secret that
    PyJWT accepts, if and only if no company identifier had been issued in
    that file before; if one had, the answer is the 401 of invalid
    credentials whatever the secret. *)
Theorem seeded_admin_login (env env' : environ) (s : store) :
  rows (empresas s) = [] ->
  result (criar_banco_basico env) (reachable s) = Return tt ->
  let s' := disk_after (criar_banco_basico env) (reachable s) in
  let out := result (login env' (mkLoginRequest admin_email "123456"))
                    (reachable s') in
  (jwt_key_error env' = None ->
   ((exists r, out = Return r) <-> sqlite3.seq_of "empresas" s <= 0))
  /\ (0 < sqlite3.seq_of "empresas" s ->
      out = Raise (HTTPException 401 "Credenciais inválidas")).
Proof.
  intros R C s' out. subst out s'.
  destruct (criar_banco_basico_run env s) as [R1 D1].
  rewrite R1 in C. rewrite D1. clear R1 D1.
  unfold bootstrap in *. rewrite R in *.
  destruct (seed_empresa_id s - 1 >=? sqlite3.MAX_ROWID); [discriminate|].
  destruct (seed_usuario_id s - 1 >=? sqlite3.MAX_ROWID); [discriminate|].
  destruct (existsb _ (rows (usuarios s))) eqn:X; [discriminate|].
  clear C. simpl snd. rewrite login_reachable. unfold login_answer.
  simpl usuarios. simpl empresas. simpl email. simpl password.
  unfold usuarios_join_empresas. rewrite flat_map_app, filter_app.
  fold (usuarios_join_empresas (rows (usuarios s))
          [seed_empresa (CURRENT_TIMESTAMP env) (seed_empresa_id s)]).
  rewrite (no_login_rows _ _ _ X).
  cbn [flat_map app]. rewrite app_nil_r, seed_login_rows.
  unfold seed_empresa_id.
  destruct (1 =? Z.max (sqlite3.seq_of "empresas" s) 0 + 1) eqn:Q.
  - apply Z.eqb_eq in Q.
    split; [intro K; rewrite K; split; [intros _; lia|intros _; eauto]
           |intro; lia].
  - apply Z.eqb_neq in Q.
    split; [intros _; split; [intros [r H]; discriminate|intro; lia]
           |reflexivity].
Qed.

Lemma seeded_admin_login_witness :
  let s' := disk_after (criar_banco_basico default_environ)
                       (reachable emptied_store) in
  let out := result (login default_environ
                       (mkLoginRequest admin_email "123456"))
                    (reachable s') in
  (jwt_key_error default_environ = None ->
   ((exists r, out = Return r)
    <-> sqlite3.seq_of "empresas" emptied_store <= 0))
  /\ (0 < sqlite3.seq_of "empresas" emptied_store ->
      out = Raise (HTTPException 401 "Credenciais inválidas")).
Proof.
  assert (C : result (criar_banco_basico default_environ)
                     (reachable emptied_store) = Return tt)
    by (vm_compute; reflexivity).
  exact (seeded_admin_login default_environ default_environ emptied_store
           eq_refl C).
Defined.

(** *** The listings on a store that honours the foreign key *)

(** X18.  On a store that can be opened and holds both tables, in which
    every user references an existing company and company identifiers are
    unique, [listar_usuarios] returns every user row once, none filtered
    on [ativo], each with the name of the company it references, in
    ascending order of the user's name.  On a store that can be opened and
    holds the [empresas] table, [listar_empresas] returns every company
    row with its seven columns, none filtered on [ativo], in ascending
    order of name. *)
Theorem listar_sorted (env : environ) (s : store) :
  (forall us es,
     usuarios s = Some us -> empresas s = Some es ->
     NoDup (map e_id es) ->
     (forall u, In u us -> In (u_empresa_id u) (map e_id es)) ->
     exists rows,
       result (listar_usuarios env) (reachable s)
       = Return (VDict
           [ ("total", VInt (Z.of_nat (List.length rows)));
             ("usuarios",
              VList (map (fun ue =>
                VDict
                  [ ("id", VInt (u_id (fst ue)));
                    ("nome", VStr (u_nome (fst ue)));
                    ("email", VStr (u_email (fst ue)));
                    ("funcao",
                     match u_funcao (fst ue) with
                     | Some f => VStr f
                     | None => VNone
                     end);
                    ("ativo",
                     match u_ativo (fst ue) with
                     | Some a => VInt a
                     | None => VNone
                     end);
                    ("empresa_nome", VStr (e_nome (snd ue))) ]) rows)) ])
       /\ Sorted (fun a b =>
                    String.leb (u_nome (fst a)) (u_nome (fst b)) = true) rows
       /\ Permutation (map fst rows) us
       /\ (forall u e,
             In (u, e) rows -> In e es /\ u_empresa_id u = e_id e))
  /\ (forall es,
        empresas s = Some es ->
        exists rows,
          result (listar_empresas env) (reachable s)
          = Return (VDict
              [ ("total", VInt (Z.of_nat (List.length rows)));
                ("empresas",
                 VList (map (fun e =>
                   VDict
                     [ ("id", VInt (e_id e));
                       ("nome", VStr (e_nome e));
                       ("cnpj",
                        match e_cnpj e with
                        | Some c => VStr c
                        | None => VNone
                        end);
                       ("email",
                        match e_email e with
                        | Some m => VStr m
                        | None => VNone
                        end);
                       ("telefone",
                        match e_telefone e with
                        | Some t => VStr t
                        | None => VNone
                        end);
                       ("ativo",
                        match e_ativo e with
                        | Some a => VInt a
                        | None => VNone
                        end);
                       ("created_at",
                        match e_created_at e with
                        | Some c => VStr c
                        | None => VNone
                        end) ]) rows)) ])
          /\ Sorted (fun a b => String.leb (e_nome a) (e_nome b) = true) rows
          /\ Permutation rows es).
Proof.
  split.
  - intros us es U E N F. exists (usuarios_listados us es).
    split; [|split; [|split]].
    + rewrite listar_usuarios_run, get_db_reachable.
      unfold store_seen. rewrite get_db_reachable. simpl snd. simpl disk.
      rewrite U, E. rewrite map_map.
      do 6 f_equal. apply map_ext. intros [u e]. reflexivity.
    + apply (order_by_sorted (fun ue => u_nome (fst ue))).
    + eapply perm_trans;
        [apply Permutation_map; apply order_by_perm|].
      rewrite (join_keeps_all us es N F). apply Permutation_refl.
    + intros u e H. apply in_usuarios_listados in H. tauto.
  - intros es E. exists (order_by e_nome es). split; [|split].
    + rewrite listar_empresas_run, get_db_reachable.
      unfold store_seen. rewrite get_db_reachable. simpl snd. simpl disk.
      rewrite E. rewrite map_map. reflexivity.
    + apply (order_by_sorted e_nome).
    + apply order_by_perm.
Qed.

(** Two companies, the first in the table last in the alphabet and not
    active, and a user of each, the first last in the alphabet and not
    active: each listing returns both rows, in order of name. *)
Lemma listar_sorted_witness :
  let b := mkEmpresa 1 "Zeiss" None None None (Some 0) None in
  let a := mkEmpresa 2 "Abbe" None None None (Some 1) None in
  let v := mkUsuario 1 2 "Vera" "vera@abbe" "h" (Some "vendedor") (Some 0)
             None in
  let u := mkUsuario 2 1 "Ugo" "ugo@zeiss" "h" None (Some 1) None in
  let s := mkStore (Some [b; a]) (Some [v; u]) None [] in
  (exists rows,
     result (listar_usuarios default_environ) (reachable s)
     = Return (VDict
         [ ("total", VInt (Z.of_nat (List.length rows)));
           ("usuarios",
            VList (map (fun ue =>
              VDict
                [ ("id", VInt (u_id (fst ue)));
                  ("nome", VStr (u_nome (fst ue)));
                  ("email", VStr (u_email (fst ue)));
                  ("funcao",
                   match u_funcao (fst ue) with
                   | Some f => VStr f
                   | None => VNone
                   end);
                  ("ativo",
                   match u_ativo (fst ue) with
                   | Some a => VInt a
                   | None => VNone
                   end);
                  ("empresa_nome", VStr (e_nome (snd ue))) ]) rows)) ])
     /\ Sorted (fun a b =>
                  String.leb (u_nome (fst a)) (u_nome (fst b)) = true) rows
     /\ Permutation (map fst rows) [v; u]
     /\ (forall u e,
           In (u, e) rows -> In e [b; a] /\ u_empresa_id u = e_id e))
  /\ (exists rows,
        result (listar_empresas default_environ) (reachable s)
        = Return (VDict
            [ ("total", VInt (Z.of_nat (List.length rows)));
              ("empresas",
               VList (map (fun e =>
                 VDict
                   [ ("id", VInt (e_id e));
                     ("nome", VStr (e_nome e));
                     ("cnpj",
                      match e_cnpj e with
                      | Some c => VStr c
                      | None => VNone
                      end);
                     ("email",
                      match e_email e with
                      | Some m => VStr m
                      | None => VNone
                      end);
                     ("telefone",
                      match e_telefone e with
                      | Some t => VStr t
                      | None => VNone
                      end);
                     ("ativo",
                      match e_ativo e with
                      | Some a => VInt a
                      | None => VNone
                      end);
                     ("created_at",
                      match e_created_at e with
                      | Some c => VStr c
                      | None => VNone
                      end) ]) rows)) ])
        /\ Sorted (fun a b => String.leb (e_nome a) (e_nome b) = true) rows
        /\ Permutation rows [b; a]).
Proof.
  intros b a v u s. split.
  - refine (proj1 (listar_sorted default_environ s)
              [v; u] [b; a] eq_refl eq_refl _ _).
    + repeat constructor; simpl; intuition discriminate.
    + intros x [<-|[<-|[]]]; simpl; tauto.
  - exact (proj2 (listar_sorted default_environ s) [b; a] eq_refl).
Defined.

(** The listings of that store, row by row. *)
Lemma listar_sorted_example :
  let b := mkEmpresa 1 "Zeiss" None None None (Some 0) None in
  let a := mkEmpresa 2 "Abbe" None None None (Some 1) None in
  let v := mkUsuario 1 2 "Vera" "vera@abbe" "h" (Some "vendedor") (Some 0)
             None in
  let u := mkUsuario 2 1 "Ugo" "ugo@zeiss" "h" None (Some 1) None in
  let s := mkStore (Some [b; a]) (Some [v; u]) None [] in
  result (listar_usuarios default_environ) (reachable s)
  = Return (VDict
      [ ("total", VInt 2);
        ("usuarios",
         VList [ VDict [ ("id", VInt 2); ("nome", VStr "Ugo");
                         ("email", VStr "ugo@zeiss"); ("funcao", VNone);
                         ("ativo", VInt 1); ("empresa_nome", VStr "Zeiss") ];
                 VDict [ ("id", VInt 1); ("nome", VStr "Vera");
                         ("email", VStr "vera@abbe");
                         ("funcao", VStr "vendedor");
                         ("ativo", VInt 0);
                         ("empresa_nome", VStr "Abbe") ] ]) ])
  /\ result (listar_empresas default_environ) (reachable s)
     = Return (VDict
         [ ("total", VInt 2);
           ("empresas",
            VList [ VDict [ ("id", VInt 2); ("nome", VStr "Abbe");
                            ("cnpj", VNone); ("email", VNone);
                            ("telefone", VNone); ("ativo", VInt 1);
                            ("created_at", VNone) ];
                    VDict [ ("id", VInt 1); ("nome", VStr "Zeiss");
                            ("cnpj", VNone); ("email", VNone);
                            ("telefone", VNone); ("ativo", VInt 0);
                            ("created_at", VNone) ] ]) ]).
Proof. split; reflexivity. Qed.
